(** * EdgePulse-Pi5: the analysis-and-alerting pipeline

    A shallow embedding of [src/analyzer.py] (threshold classifier, trend
    detector, cooldown filter), [src/alerts.py] (severity-routed dispatcher
    with its history) and the monitoring loop of [main.py].

    Numbers.  A Python [int] or finite [float] is modelled by an exact
    rational ([Q]); Python compares such numbers exactly, so every [<] and
    [>] of the source is the order of [Q].  The rounding of float
    arithmetic (in the means of the trend detector and in the
    Fahrenheit-to-Celsius conversion) is not modelled: arithmetic is exact.

    Time.  [datetime.now()] is an input: an integer count of microseconds.

    Exceptions.  A value on which ordering or arithmetic raises [TypeError]
    ([None], a string) is [PyOther]; code that can raise lives in the
    [result] monad, and [try ... except Exception] becomes a match on it. *)

From Stdlib Require Import QArith Lqa.
From stdpp Require Import gmap strings list.

(* ===================================================================== *)
(** ** Python values and exceptions *)
(* ===================================================================== *)

Inductive pyval : Type :=
| PyNum (q : Q)
| PyOther.

Inductive result (A : Type) : Type :=
| Ok (a : A)
| Raise.
Arguments Ok {A} a.
Arguments Raise {A}.

Definition bind {A B : Type} (m : result A) (k : A -> result B) : result B :=
  match m with
  | Ok a => k a
  | Raise => Raise
  end.

Notation "'do' x <- m ; k" := (bind m (fun x => k))
  (at level 10, x name, m at level 100, k at level 200).

(** The operand of [<], [>], [-] or [+]: a number, or [TypeError]. *)
Definition as_num (v : pyval) : result Q :=
  match v with
  | PyNum q => Ok q
  | PyOther => Raise
  end.

(** [a < b] and [a > b] on Python numbers. *)
Definition Qltb (a b : Q) : bool := (Qnum a * QDen b <? Qnum b * QDen a)%Z.
Definition Qgtb (a b : Q) : bool := Qltb b a.

(* ===================================================================== *)
(** ** Data model *)
(* ===================================================================== *)

(** The [readings] dict: each key may be absent. *)
Record reading : Type := mkReading {
  r_heart_rate : option pyval;
  r_spo2 : option pyval;
  r_temperature : option pyval;
  r_temperature_unit : option string
}.

(** One entry of the [thresholds] dict: each key may be absent. *)
Record limits : Type := mkLimits {
  l_min : option Q;
  l_max : option Q;
  l_critical_min : option Q;
  l_critical_max : option Q
}.

Definition no_limits : limits := mkLimits None None None None.

Record thresholds : Type := mkThresholds {
  th_heart_rate : option limits;
  th_spo2 : option limits;
  th_temperature : option limits
}.

(** [d.get(key, dflt)] *)
Definition get {A : Type} (o : option A) (dflt : A) : A :=
  match o with
  | Some a => a
  | None => dflt
  end.

(** The ['type'] of an alert dict. *)
Inductive alert_type : Type :=
| heart_rate
| spo2
| temperature
| heart_rate_trend
| spo2_trend
| temperature_trend
| system_error
| test.

Inductive severity : Type :=
| Critical
| Warning
| Info.

Definition type_name (t : alert_type) : string :=
  match t with
  | heart_rate => "heart_rate"
  | spo2 => "spo2"
  | temperature => "temperature"
  | heart_rate_trend => "heart_rate_trend"
  | spo2_trend => "spo2_trend"
  | temperature_trend => "temperature_trend"
  | system_error => "system_error"
  | test => "test"
  end.

Definition severity_name (s : severity) : string :=
  match s with
  | Critical => "critical"
  | Warning => "warning"
  | Info => "info"
  end.

(** The ['message'] f-strings, one constructor per template, carrying the
    interpolated numbers. *)
Inductive message : Type :=
| CriticalBradycardia (hr : Q)
| CriticalTachycardia (hr : Q)
| Bradycardia (hr : Q)
| Tachycardia (hr : Q)
| CriticalHypoxemia (v : Q)
| LowBloodOxygen (v : Q)
| CriticalHypothermia (t : Q)
| CriticalHyperthermia (t : Q)
| LowBodyTemperature (t : Q)
| Fever (t : Q)
| RapidHeartRateIncrease (older recent : Q)
| DecliningBloodOxygen (older recent : Q)
| RisingTemperature (older recent : Q)
| SensorCommunicationFailure
| TestAlert.

(** An alert dict.  [a_value] and [a_threshold] are [None] when the key is
    absent or holds [None]. *)
Record alert : Type := mkAlert {
  a_type : alert_type;
  a_severity : severity;
  a_message : message;
  a_value : option Q;
  a_threshold : option Q;
  a_timestamp : Z
}.

(* ===================================================================== *)
(** ** Threshold classification ([analyzer.py], lines 73-223) *)
(* ===================================================================== *)

Section Classifier.

Variable th : thresholds.
Variable now : Z.

Definition _analyze_heart_rate (readings : reading) : result (list alert) :=
  match r_heart_rate readings with
  | None => Ok []
  | Some v =>
    let t := get (th_heart_rate th) no_limits in
    do hr <- as_num v;
    if Qltb hr (get (l_critical_min t) 40%Q) then
      Ok [mkAlert heart_rate Critical (CriticalBradycardia hr)
                  (Some hr) (l_critical_min t) now]
    else if Qgtb hr (get (l_critical_max t) 150%Q) then
      Ok [mkAlert heart_rate Critical (CriticalTachycardia hr)
                  (Some hr) (l_critical_max t) now]
    else if Qltb hr (get (l_min t) 60%Q) then
      Ok [mkAlert heart_rate Warning (Bradycardia hr)
                  (Some hr) (l_min t) now]
    else if Qgtb hr (get (l_max t) 100%Q) then
      Ok [mkAlert heart_rate Warning (Tachycardia hr)
                  (Some hr) (l_max t) now]
    else Ok []
  end.

Definition _analyze_spo2 (readings : reading) : result (list alert) :=
  match r_spo2 readings with
  | None => Ok []
  | Some v =>
    let t := get (th_spo2 th) no_limits in
    do s <- as_num v;
    if Qltb s (get (l_critical_min t) 90%Q) then
      Ok [mkAlert spo2 Critical (CriticalHypoxemia s)
                  (Some s) (l_critical_min t) now]
    else if Qltb s (get (l_min t) 95%Q) then
      Ok [mkAlert spo2 Warning (LowBloodOxygen s)
                  (Some s) (l_min t) now]
    else Ok []
  end.

(** [unit == 'F'] with [unit = readings.get('temperature_unit', 'C')]. *)
Definition is_fahrenheit (readings : reading) : bool :=
  String.eqb (get (r_temperature_unit readings) "C") "F".

(** [(temp - 32) * 5/9] *)
Definition to_celsius (f : Q) : Q := ((f - 32) * 5 / 9)%Q.

(** The value the comparisons of [_analyze_temperature] see. *)
Definition celsius (readings : reading) (raw : Q) : Q :=
  if is_fahrenheit readings then to_celsius raw else raw.

Definition _analyze_temperature (readings : reading) : result (list alert) :=
  match r_temperature readings with
  | None => Ok []
  | Some v =>
    let t := get (th_temperature th) no_limits in
    do raw <- as_num v;
    let temp := celsius readings raw in
    if Qltb temp (get (l_critical_min t) 35.0%Q) then
      Ok [mkAlert temperature Critical (CriticalHypothermia temp)
                  (Some temp) (l_critical_min t) now]
    else if Qgtb temp (get (l_critical_max t) 39.0%Q) then
      Ok [mkAlert temperature Critical (CriticalHyperthermia temp)
                  (Some temp) (l_critical_max t) now]
    else if Qltb temp (get (l_min t) 36.1%Q) then
      Ok [mkAlert temperature Warning (LowBodyTemperature temp)
                  (Some temp) (l_min t) now]
    else if Qgtb temp (get (l_max t) 37.8%Q) then
      let sev := if Qltb temp 38.5%Q then Warning else Critical in
      Ok [mkAlert temperature sev (Fever temp)
                  (Some temp) (l_max t) now]
    else Ok []
  end.

End Classifier.

(* ===================================================================== *)
(** ** Rolling windows and trend detection ([analyzer.py], lines 27-29,
       51-56, 225-271) *)
(* ===================================================================== *)

(** [deque(maxlen=60)]: oldest first, newest last. *)
Definition maxlen : nat := 60.

(** [d.append(x)] on a bounded deque: a full deque drops its oldest item. *)
Definition deque_append {A : Type} (d : list A) (x : A) : list A :=
  if (maxlen <=? length d)%nat then drop 1 d ++ [x] else d ++ [x].

(** [list(d)[-n:]] *)
Definition last_n {A : Type} (n : nat) (l : list A) : list A :=
  drop (length l - n) l.

(** [list(d)[-a:-b]] *)
Definition slice_neg {A : Type} (a b : nat) (l : list A) : list A :=
  drop (length l - a) (take (length l - b) l).

(** [sum(l)]: starts from 0 and adds from the left. *)
Fixpoint sum_from (acc : Q) (l : list pyval) : result Q :=
  match l with
  | [] => Ok acc
  | v :: l' => do q <- as_num v; sum_from (acc + q)%Q l'
  end.

Definition py_sum (l : list pyval) : result Q := sum_from 0%Q l.

(** [recent_avg] and [older_avg] of one history. *)
Definition recent_avg (h : list pyval) : result Q :=
  do s <- py_sum (last_n 5 h); Ok (s / 5)%Q.

Definition older_avg (h : list pyval) : result Q :=
  do s <- py_sum (slice_neg 10 5 h); Ok (s / 5)%Q.

Section Trends.

Variable now : Z.

Definition heart_rate_trend_alerts (h : list pyval) : result (list alert) :=
  if (10 <=? length h)%nat then
    do recent <- recent_avg h;
    do older <- older_avg h;
    if Qgtb recent (older + 20)%Q then
      Ok [mkAlert heart_rate_trend Warning (RapidHeartRateIncrease older recent)
                  (Some (recent - older)%Q) None now]
    else Ok []
  else Ok [].

Definition spo2_trend_alerts (h : list pyval) : result (list alert) :=
  if (10 <=? length h)%nat then
    do recent <- recent_avg h;
    do older <- older_avg h;
    if Qltb recent (older - 3)%Q then
      Ok [mkAlert spo2_trend Warning (DecliningBloodOxygen older recent)
                  (Some (recent - older)%Q) None now]
    else Ok []
  else Ok [].

Definition temperature_trend_alerts (h : list pyval) : result (list alert) :=
  if (10 <=? length h)%nat then
    do recent <- recent_avg h;
    do older <- older_avg h;
    if Qgtb recent (older + 0.5)%Q then
      Ok [mkAlert temperature_trend Info (RisingTemperature older recent)
                  (Some (recent - older)%Q) None now]
    else Ok []
  else Ok [].

(** [_analyze_trends], on the three histories of the analyzer. *)
Definition _analyze_trends (hr_h spo2_h temp_h : list pyval)
  : result (list alert) :=
  do a1 <- heart_rate_trend_alerts hr_h;
  do a2 <- spo2_trend_alerts spo2_h;
  do a3 <- temperature_trend_alerts temp_h;
  Ok (a1 ++ a2 ++ a3).

End Trends.

(* ===================================================================== *)
(** ** Cooldown filter ([analyzer.py], lines 32-33, 273-294) *)
(* ===================================================================== *)

(** [f"{alert['type']}_{alert['severity']}"] *)
Definition alert_key (a : alert) : string :=
  type_name (a_type a) +:+ "_" +:+ severity_name (a_severity a).

(** [(t1 - t0).total_seconds()], for times in microseconds. *)
Definition total_seconds (delta : Z) : Q :=
  (inject_Z delta / inject_Z 1000000)%Q.

(** One iteration of the [for alert in alerts] loop: the state is
    [self.last_alert_time] and [filtered_alerts]. *)
Definition cooldown_step (alert_cooldown : Q) (current_time : Z)
    (st : gmap string Z * list alert) (a : alert)
  : gmap string Z * list alert :=
  let '(last, filtered) := st in
  match last !! alert_key a with
  | Some prior =>
    if Qltb (total_seconds (current_time - prior)) alert_cooldown
    then (last, filtered)
    else (<[alert_key a := current_time]> last, filtered ++ [a])
  | None => (<[alert_key a := current_time]> last, filtered ++ [a])
  end.

Definition _apply_cooldown (alert_cooldown : Q) (current_time : Z)
    (last : gmap string Z) (alerts : list alert)
  : gmap string Z * list alert :=
  foldl (cooldown_step alert_cooldown current_time) (last, []) alerts.

(* ===================================================================== *)
(** ** The analyzer object and [analyze] ([analyzer.py], lines 17-71) *)
(* ===================================================================== *)

Record analyzer : Type := mkAnalyzer {
  an_thresholds : thresholds;
  heart_rate_history : list pyval;
  spo2_history : list pyval;
  temp_history : list pyval;
  last_alert_time : gmap string Z;
  alert_cooldown : Q
}.

(** [VitalSignsAnalyzer(thresholds)] *)
Definition new_analyzer (th : thresholds) : analyzer :=
  mkAnalyzer th [] [] [] ∅ 300%Q.

(** [if key in readings: history.append(readings[key])] *)
Definition update_history (h : list pyval) (v : option pyval) : list pyval :=
  match v with
  | Some x => deque_append h x
  | None => h
  end.

(** The histories after the "Update history" block. *)
Definition ingest (s : analyzer) (readings : reading) : analyzer :=
  mkAnalyzer (an_thresholds s)
    (update_history (heart_rate_history s) (r_heart_rate readings))
    (update_history (spo2_history s) (r_spo2 readings))
    (update_history (temp_history s) (r_temperature readings))
    (last_alert_time s) (alert_cooldown s).

(** The four detectors run on the updated histories; the first exception
    aborts the rest. *)
Definition raw_alerts (s : analyzer) (now : Z) (readings : reading)
  : result (list alert) :=
  do a1 <- _analyze_heart_rate (an_thresholds s) now readings;
  do a2 <- _analyze_spo2 (an_thresholds s) now readings;
  do a3 <- _analyze_temperature (an_thresholds s) now readings;
  do a4 <- _analyze_trends now (heart_rate_history s) (spo2_history s)
             (temp_history s);
  Ok (a1 ++ a2 ++ a3 ++ a4).

(** The body of the [try] block: [Raise] when an exception leaves it.  The
    appends to the histories persist in either case. *)
Definition analyze_body (s : analyzer) (now : Z) (readings : reading)
  : analyzer * result (list alert) :=
  let s1 := ingest s readings in
  match raw_alerts s1 now readings with
  | Ok alerts =>
    let '(last, filtered) :=
      _apply_cooldown (alert_cooldown s1) now (last_alert_time s1) alerts in
    (mkAnalyzer (an_thresholds s1) (heart_rate_history s1) (spo2_history s1)
       (temp_history s1) last (alert_cooldown s1), Ok filtered)
  | Raise => (s1, Raise)
  end.

(** [analyze]: [except Exception: return []]. *)
Definition analyze (s : analyzer) (now : Z) (readings : reading)
  : analyzer * list alert :=
  match analyze_body s now readings with
  | (s', Ok alerts) => (s', alerts)
  | (s', Raise) => (s', [])
  end.


(* ===================================================================== *)
(** ** Alert dispatch ([alerts.py], lines 43-73, 193-214, 246-280,
       283-342) *)
(* ===================================================================== *)

Inductive channel : Type :=
| ChEmail
| ChSms
| ChLocal.

(** What a transport (SMTP session, Twilio call, GPIO indicators) does when
    a handler's [try] block runs it: it completes, or it raises. *)
Inductive transport_outcome : Type :=
| Delivered
| Failed.

(** The per-channel outcome dict [results]. *)
Record results : Type := mkResults {
  res_email : bool;
  res_sms : bool;
  res_local : bool
}.

Definition results_get (r : results) (ch : channel) : bool :=
  match ch with
  | ChEmail => res_email r
  | ChSms => res_sms r
  | ChLocal => res_local r
  end.

(** [AlertManager]: the handlers' switches ([EmailAlert.enabled],
    [SMSAlert.enabled], whether [LocalAlert.indicators] is set) and the
    history. *)
Record alert_manager : Type := mkManager {
  email_enabled : bool;
  sms_enabled : bool;
  has_indicators : bool;
  alert_history : list alert;
  max_history : nat
}.

(** [AlertManager(config, indicators)] *)
Definition new_manager (email sms indicators : bool) : alert_manager :=
  mkManager email sms indicators [] 1000.

Definition handler_enabled (m : alert_manager) (ch : channel) : bool :=
  match ch with
  | ChEmail => email_enabled m
  | ChSms => sms_enabled m
  | ChLocal => has_indicators m
  end.

Section Dispatch.

(** The outside world: what each transport does with each alert. *)
Variable transport : channel -> alert -> transport_outcome.

(** [EmailAlert.send], [SMSAlert.send], [LocalAlert.send]: [False] when the
    handler is switched off, otherwise [True] unless the [try] block
    raises, in which case the handler logs and returns [False]. *)
Definition send (m : alert_manager) (ch : channel) (a : alert) : bool :=
  if handler_enabled m ch then
    match transport ch a with
    | Delivered => true
    | Failed => false
    end
  else false.

(** A call [self.<ch>_alert.send(alert)] made by [send_alert]: the call is
    appended to the log of attempts. *)
Definition attempt (m : alert_manager) (a : alert) (ch : channel)
    (log : list channel) : bool * list channel :=
  (send m ch a, log ++ [ch]).

(** [self.alert_history.append(alert)], then [pop(0)] when too long. *)
Definition record_alert (m : alert_manager) (a : alert) : alert_manager :=
  let h := alert_history m ++ [a] in
  mkManager (email_enabled m) (sms_enabled m) (has_indicators m)
    (if (max_history m <? length h)%nat then drop 1 h else h)
    (max_history m).

(** [send_alert]: the new manager, the returned [results] and the calls
    made on the handlers, in order. *)
Definition send_alert (m : alert_manager) (a : alert)
  : alert_manager * results * list channel :=
  let m' := record_alert m a in
  match a_severity a with
  | Critical =>
    let '(e, log) := attempt m' a ChEmail [] in
    let '(s, log) := attempt m' a ChSms log in
    let '(l, log) := attempt m' a ChLocal log in
    (m', mkResults e s l, log)
  | Warning =>
    let '(e, log) := attempt m' a ChEmail [] in
    let '(l, log) := attempt m' a ChLocal log in
    (m', mkResults e false l, log)
  | Info =>
    let '(l, log) := attempt m' a ChLocal [] in
    (m', mkResults false false l, log)
  end.

(** Dispatching a sequence of alerts, one [send_alert] call each. *)
Definition send_alerts (m : alert_manager) (alerts : list alert)
  : alert_manager :=
  foldl (fun m a => (send_alert m a).1.1) m alerts.

(* ===================================================================== *)
(** ** The monitoring loop ([main.py], lines 76-140) *)
(* ===================================================================== *)

(** What [self.sensor_manager.read_all()] does on one tick: it returns a
    non-empty dict, it returns a falsy value ([None]), or an exception
    leaves it. *)
Inductive acquisition : Type :=
| AcqReading (readings : reading)
| AcqNone
| AcqRaise.

Record monitor : Type := mkMonitor {
  mon_analyzer : analyzer;
  mon_manager : alert_manager;
  consecutive_errors : nat
}.

Definition max_consecutive_errors : nat := 5.

Definition error_alert (now : Z) : alert :=
  mkAlert system_error Critical SensorCommunicationFailure None None now.

(** One iteration of [while self.running]: the new state and the alerts
    handed to [send_alert] during the iteration, in order.  The three
    branches are [if readings:] (lines 95-115), its [else:] (lines 117-129)
    and [except Exception] (lines 134-137).  The storage calls
    ([save_reading], [save_alert]) return a boolean, never raise and do not
    touch this state; they and [time.sleep] are left out. *)
Definition tick (m : monitor) (now : Z) (acq : acquisition)
  : monitor * list alert :=
  match acq with
  | AcqReading readings =>
    let '(an, alerts) := analyze (mon_analyzer m) now readings in
    (mkMonitor an (send_alerts (mon_manager m) alerts) 0, alerts)
  | AcqNone =>
    let c := S (consecutive_errors m) in
    if (max_consecutive_errors <=? c)%nat then
      (mkMonitor (mon_analyzer m)
         (send_alert (mon_manager m) (error_alert now)).1.1 0,
       [error_alert now])
    else (mkMonitor (mon_analyzer m) (mon_manager m) c, [])
  | AcqRaise =>
    (mkMonitor (mon_analyzer m) (mon_manager m) (S (consecutive_errors m)),
     [])
  end.

(** The loop over a finite run of ticks, each with its clock reading; the
    alerts dispatched are collected tick by tick. *)
Fixpoint run (m : monitor) (ticks : list (Z * acquisition))
  : monitor * list (list alert) :=
  match ticks with
  | [] => (m, [])
  | (now, acq) :: rest =>
    let '(m1, sent) := tick m now acq in
    let '(m2, sents) := run m1 rest in
    (m2, sent :: sents)
  end.

End Dispatch.

(** [EdgePulseMonitor.start]: [consecutive_errors = 0]. *)
Definition new_monitor (th : thresholds) (email sms : bool) : monitor :=
  mkMonitor (new_analyzer th) (new_manager email sms false) 0.

(* ===================================================================== *)
(** ** Vocabulary of the properties *)
(* ===================================================================== *)

(** The configured bounds, with the defaults of the source. *)
Definition hr_limits (th : thresholds) : limits :=
  get (th_heart_rate th) no_limits.
Definition spo2_limits (th : thresholds) : limits :=
  get (th_spo2 th) no_limits.
Definition temp_limits (th : thresholds) : limits :=
  get (th_temperature th) no_limits.

Definition hr_critical_min th : Q := get (l_critical_min (hr_limits th)) 40%Q.
Definition hr_critical_max th : Q := get (l_critical_max (hr_limits th)) 150%Q.
Definition hr_min th : Q := get (l_min (hr_limits th)) 60%Q.
Definition hr_max th : Q := get (l_max (hr_limits th)) 100%Q.

Definition spo2_critical_min th : Q :=
  get (l_critical_min (spo2_limits th)) 90%Q.
Definition spo2_min th : Q := get (l_min (spo2_limits th)) 95%Q.

Definition temp_critical_min th : Q :=
  get (l_critical_min (temp_limits th)) 35.0%Q.
Definition temp_critical_max th : Q :=
  get (l_critical_max (temp_limits th)) 39.0%Q.
Definition temp_min th : Q := get (l_min (temp_limits th)) 36.1%Q.
Definition temp_max th : Q := get (l_max (temp_limits th)) 37.8%Q.

(** [out] is exactly one alert, of the given type, severity and message. *)
Definition one_alert (out : list alert) (ty : alert_type) (sev : severity)
    (msg : message) : Prop :=
  exists a, out = [a] /\ a_type a = ty /\ a_severity a = sev /\
            a_message a = msg.

#[global] Instance alert_type_eq_dec : EqDecision alert_type.
Proof. solve_decision. Defined.

#[global] Instance severity_eq_dec : EqDecision severity.
Proof. solve_decision. Defined.


(** Nothing, or one alert of type [ty]. *)
Definition shape (ty : alert_type) (out : list alert) : Prop :=
  out = [] \/ exists a, out = [a] /\ a_type a = ty.



(** The thresholds dict of the source's self-test (they are the defaults). *)
Definition default_thresholds : thresholds :=
  mkThresholds
    (Some (mkLimits (Some 60%Q) (Some 100%Q) (Some 40%Q) (Some 150%Q)))
    (Some (mkLimits (Some 95%Q) None (Some 90%Q) None))
    (Some (mkLimits (Some 36.1%Q) (Some 37.8%Q) (Some 35.0%Q) (Some 39.0%Q))).




(** The key of [a] has a recorded time less than [cd] seconds before
    [now]. *)
Definition in_cooldown (cd : Q) (now : Z) (last : gmap string Z) (a : alert)
  : Prop :=
  exists prior, last !! alert_key a = Some prior /\
                (total_seconds (now - prior) < cd)%Q.







(** The outside world in which the SMS transport raises and the others
    deliver. *)
Definition sms_down (ch : channel) (a : alert) : transport_outcome :=
  match ch with
  | ChSms => Failed
  | _ => Delivered
  end.

(** The alerts of three successive [analyze] calls on the same reading, at
    the given times (in seconds). *)
Definition three_calls (readings : reading) (t1 t2 t3 : Z)
  : list alert * list alert * list alert :=
  let '(s1, out1) :=
    analyze (new_analyzer default_thresholds) (t1 * 1000000) readings in
  let '(s2, out2) := analyze s1 (t2 * 1000000) readings in
  let '(_, out3) := analyze s2 (t3 * 1000000) readings in
  (out1, out2, out3).

(* ===================================================================== *)
(** ** Further code of [analyzer.py]: statistics and reset (lines 296-338) *)
(* ===================================================================== *)

(** [a < b] and [a > b] on Python values, as [min] and [max] evaluate
    them. *)
Definition py_lt (a b : pyval) : result bool :=
  do x <- as_num a; do y <- as_num b; Ok (Qltb x y).

Definition py_gt (a b : pyval) : result bool :=
  do x <- as_num a; do y <- as_num b; Ok (Qgtb x y).

(** [min(l)] and [max(l)]: the first item, replaced by each later item that
    compares strictly below (above) the one held. *)
Fixpoint min_from (held : pyval) (l : list pyval) : result pyval :=
  match l with
  | [] => Ok held
  | x :: l' => do b <- py_lt x held; min_from (if b then x else held) l'
  end.

Fixpoint max_from (held : pyval) (l : list pyval) : result pyval :=
  match l with
  | [] => Ok held
  | x :: l' => do b <- py_gt x held; max_from (if b then x else held) l'
  end.

(** On an empty list both raise [ValueError]. *)
Definition py_min (l : list pyval) : result pyval :=
  match l with
  | [] => Raise
  | x :: l' => min_from x l'
  end.

Definition py_max (l : list pyval) : result pyval :=
  match l with
  | [] => Raise
  | x :: l' => max_from x l'
  end.

(** One entry of the [stats] dict. *)
Record vital_stats : Type := mkStats {
  st_current : pyval;
  st_average : Q;
  st_min : pyval;
  st_max : pyval;
  st_count : nat
}.

(** The block [if self.<vital>_history: ...] of [get_statistics]: no entry
    for an empty window; otherwise the dict literal, whose values are
    evaluated in the order current, average, min, max, count. *)
Definition vital_statistics (h : list pyval) : result (option vital_stats) :=
  match last h with
  | None => Ok None
  | Some current =>
    do total <- py_sum h;
    do lo <- py_min h;
    do hi <- py_max h;
    Ok (Some (mkStats current (total / inject_Z (Z.of_nat (length h)))%Q
                      lo hi (length h)))
  end.

(** The [stats] dict: each key may be absent. *)
Record statistics : Type := mkStatistics {
  stats_heart_rate : option vital_stats;
  stats_spo2 : option vital_stats;
  stats_temperature : option vital_stats
}.

(** [get_statistics]; it has no [try]: an exception leaves it. *)
Definition get_statistics (s : analyzer) : result statistics :=
  do hr <- vital_statistics (heart_rate_history s);
  do sp <- vital_statistics (spo2_history s);
  do te <- vital_statistics (temp_history s);
  Ok (mkStatistics hr sp te).

(** [reset_history] *)
Definition reset_history (s : analyzer) : analyzer :=
  mkAnalyzer (an_thresholds s) [] [] [] ∅ (alert_cooldown s).

(** A sequence of [analyze] calls on one analyzer, each with its clock
    reading: the final state and, call by call, the time and the alerts
    returned. *)
Fixpoint analyze_all (s : analyzer) (calls : list (Z * reading))
  : analyzer * list (Z * list alert) :=
  match calls with
  | [] => (s, [])
  | (now, readings) :: rest =>
    let '(s1, out) := analyze s now readings in
    let '(s2, outs) := analyze_all s1 rest in
    (s2, (now, out) :: outs)
  end.

(** ** Vocabulary of the further properties *)

(** The alerts returned by a sequence of calls, in order, each with the
    time of its call. *)
Definition emissions (outs : list (Z * list alert)) : list (Z * alert) :=
  outs ≫= (fun '(now, out) => (fun a => (now, a)) <$> out).

(** The test of [_apply_cooldown] on one alert, against recorded times
    [last]. *)
Definition cooling (cd : Q) (now : Z) (last : gmap string Z) (a : alert)
  : bool :=
  match last !! alert_key a with
  | Some prior => Qltb (total_seconds (now - prior)) cd
  | None => false
  end.

(** The recorded times after the keys of [alerts] are set to [now]. *)
Definition record_all (now : Z) (last : gmap string Z) (alerts : list alert)
  : gmap string Z :=
  foldl (fun m a => <[alert_key a := now]> m) last alerts.

(** The three windows hold at most [maxlen] samples each. *)
Definition windows_bounded (s : analyzer) : Prop :=
  (length (heart_rate_history s) <= maxlen)%nat /\
  (length (spo2_history s) <= maxlen)%nat /\
  (length (temp_history s) <= maxlen)%nat.

(** Any two alerts of [E] with one key lie at least [cd] seconds apart, the
    later in the list being the later in time. *)
Fixpoint spaced (cd : Q) (E : list (Z * alert)) : Prop :=
  match E with
  | [] => True
  | ta :: E' =>
    Forall (fun tb => alert_key ta.2 = alert_key tb.2 ->
                      (cd <= total_seconds (tb.1 - ta.1))%Q) E' /\
    spaced cd E'
  end.

(** Every alert of [E] has its key recorded in [last], at its own time or
    later. *)
Definition covered (last : gmap string Z) (E : list (Z * alert)) : Prop :=
  Forall (fun ta => exists t', last !! alert_key ta.2 = Some t' /\
                               (ta.1 <= t')%Z) E.


(* ===================================================================== *)
(** ** Further code of [alerts.py]: history access and the result log
       (lines 335-351) *)
(* ===================================================================== *)

(** [l[start:]] for an integer [start]: a negative start counts from the
    end, and both ends are clamped to the list. *)
Definition slice_from {A : Type} (start : Z) (l : list A) : list A :=
  if (start <? 0)%Z
  then drop (Z.to_nat (Z.max 0 (Z.of_nat (length l) + start))) l
  else drop (Z.to_nat start) l.

(** [get_alert_history(count)]: [self.alert_history[-count:]]. *)
Definition get_alert_history (m : alert_manager) (count : Z) : list alert :=
  slice_from (- count) (alert_history m).

(** [clear_history] *)
Definition clear_history (m : alert_manager) : alert_manager :=
  mkManager (email_enabled m) (sms_enabled m) (has_indicators m) []
    (max_history m).

(** [[ch for ch, success in results.items() if success]]: the dict keeps
    the order email, sms, local. *)
Definition sent_channels (r : results) : list channel :=
  filter (fun ch => results_get r ch = true) [ChEmail; ChSms; ChLocal].

(** What [send_alert] logs about the outcome: the channels that delivered
    (at level info), or that none did (at level warning). *)
Inductive outcome_log : Type :=
| LogSentVia (chs : list channel)
| LogNotSent.

Definition log_results (r : results) : outcome_log :=
  match sent_channels r with
  | [] => LogNotSent
  | chs => LogSentVia chs
  end.

(* ===================================================================== *)
(** ** The sensors behind [read_all] ([sensors.py], lines 73-185, 210-251,
       348-374) *)
(* ===================================================================== *)

(** [a / b]: [ZeroDivisionError] when [b] is zero. *)
Definition py_div (a b : Q) : result Q :=
  if Qeq_bool b 0 then Raise else Ok (a / b)%Q.

(** [sum], [min] and [max] of a list of numbers. *)
Definition sum_nums (l : list Q) : Q := foldl Qplus 0%Q l.

Fixpoint Qmin_from (held : Q) (l : list Q) : Q :=
  match l with
  | [] => held
  | x :: l' => Qmin_from (if Qltb x held then x else held) l'
  end.

Fixpoint Qmax_from (held : Q) (l : list Q) : Q :=
  match l with
  | [] => held
  | x :: l' => Qmax_from (if Qgtb x held then x else held) l'
  end.

(** [a <= x <= b] *)
Definition Qbetween (a x b : Q) : bool := Qle_bool a x && Qle_bool x b.

(** [int(x)]: truncation toward zero. *)
Definition py_int (x : Q) : Z := Z.quot (Qnum x) (QDen x).

(** The test of the peak-detection loop at index [i] of
    [range(1, len(ir_values) - 1)]. *)
Definition is_peak (ir_values : list Q) (threshold : Q) (i : nat) : bool :=
  match ir_values !! i, ir_values !! (i - 1)%nat, ir_values !! (i + 1)%nat with
  | Some x, Some before, Some after =>
    Qgtb x threshold && (Qgtb x before && Qgtb x after)
  | _, _, _ => false
  end.

Definition find_peaks (ir_values : list Q) (threshold : Q) : list nat :=
  filter (fun i => is_peak ir_values threshold i = true)
         (seq 1 (length ir_values - 2)).

(** [[peaks[i+1] - peaks[i] for i in range(len(peaks)-1)]] *)
Definition peak_intervals (peaks : list nat) : list Z :=
  zip_with (fun a b => (Z.of_nat b - Z.of_nat a)%Z) peaks (drop 1 peaks).

Definition Zsum (l : list Z) : Z := foldr Z.add 0%Z l.

(** [MAX30102Sensor._calculate_heart_rate]; a sample is a pair (red, ir). *)
Definition _calculate_heart_rate (samples : list (Q * Q)) : result (option Q) :=
  match samples with
  | [] => Ok None
  | _ =>
    let ir_values := snd <$> samples in
    do threshold <- py_div (sum_nums ir_values)
                      (inject_Z (Z.of_nat (length ir_values)));
    let peaks := find_peaks ir_values threshold in
    if (length peaks <? 2)%nat then Ok None
    else
      let intervals := peak_intervals peaks in
      do avg_interval <- py_div (inject_Z (Zsum intervals))
                           (inject_Z (Z.of_nat (length intervals)));
      do heart_rate <- py_div 60 (avg_interval * 0.01);
      if Qbetween 30 heart_rate 250 then Ok (Some heart_rate) else Ok None
  end.

(** [MAX30102Sensor._calculate_spo2] *)
Definition _calculate_spo2 (samples : list (Q * Q)) : result (option Q) :=
  match samples with
  | [] => Ok None
  | (red0, ir0) :: rest =>
    let red_values := fst <$> samples in
    let ir_values := snd <$> samples in
    let red_ac := (Qmax_from red0 (fst <$> rest)
                   - Qmin_from red0 (fst <$> rest))%Q in
    do red_dc <- py_div (sum_nums red_values)
                   (inject_Z (Z.of_nat (length red_values)));
    let ir_ac := (Qmax_from ir0 (snd <$> rest)
                  - Qmin_from ir0 (snd <$> rest))%Q in
    do ir_dc <- py_div (sum_nums ir_values)
                  (inject_Z (Z.of_nat (length ir_values)));
    if Qeq_bool red_dc 0 || Qeq_bool ir_dc 0 || Qeq_bool ir_ac 0
    then Ok None
    else
      do x <- py_div red_ac red_dc;
      do y <- py_div ir_ac ir_dc;
      do r <- py_div x y;
      let spo2 := (110 - 25 * r)%Q in
      if Qbetween 70 spo2 100 then Ok (Some spo2) else Ok None
  end.

(** [x and lo <= x <= hi] on an optional float from the two functions
    above. *)
Definition valid_in (lo hi : Q) (x : option Q) : bool :=
  match x with
  | Some v => negb (Qeq_bool v 0) && Qbetween lo v hi
  | None => false
  end.

(** [MAX30102Sensor.read] on the real sensor.  [polls] is what the hundred
    passes of the sampling loop find ([None]: no sample available), or
    [Raise] when the sensor library raises; the whole body is under
    [try ... except Exception: return None]. *)
Definition max30102_read (polls : result (list (option (Q * Q))))
  : option (Z * Z) :=
  match polls with
  | Raise => None
  | Ok ps =>
    let samples := omap id (take 100 ps) in
    match samples with
    | [] => None
    | _ =>
      match (do hr <- _calculate_heart_rate samples;
             do sp <- _calculate_spo2 samples; Ok (hr, sp)) with
      | Ok (Some hr, Some sp) =>
        if valid_in 30 250 (Some hr) && valid_in 70 100 (Some sp)
        then Some (py_int hr, py_int sp) else None
      | _ => None
      end
    end
  end.

(** [MAX30102Sensor._simulate_reading]; [d_hr] and [d_spo2] are the draws
    [random.randint(-5, 5)] and [random.randint(-2, 2)]. *)
Definition max30102_simulate (d_hr d_spo2 : Z) : option (Z * Z) :=
  Some ((75 + d_hr)%Z, (97 + d_spo2)%Z).

(** [round(x, 1)]: the nearest multiple of one tenth, a tie going to the
    even one. *)
Definition round_half_even (x : Q) : Z :=
  let f := (Qnum x / QDen x)%Z in
  let twice_rest := (2 * (Qnum x mod QDen x))%Z in
  if (twice_rest <? QDen x)%Z then f
  else if (QDen x <? twice_rest)%Z then (f + 1)%Z
  else if Z.even f then f else (f + 1)%Z.

Definition round1 (x : Q) : Q :=
  (inject_Z (round_half_even (x * 10)) / 10)%Q.

(** [DS18B20Sensor.read] on the real sensor: [sensor] is what
    [get_temperature()] returns, or [Raise]; [offset] is the configured
    [calibration_offset]. *)
Definition ds18b20_read (offset : Q) (sensor : result Q) : option Q :=
  match sensor with
  | Raise => None
  | Ok t =>
    let temp_celsius := (t + offset)%Q in
    if Qbetween 30.0 temp_celsius 42.0 then Some (round1 temp_celsius)
    else None
  end.

(** [DS18B20Sensor._simulate_reading]; [u] is the draw
    [random.uniform(-0.3, 0.3)]. *)
Definition ds18b20_simulate (u : Q) : option Q :=
  Some (round1 (36.8 + u)).

(** The dict [{**pulse_ox_data, **temp_data}] (its ['timestamp'] entry is
    not read by the analyzer and is left out). *)
Definition combine (pulse : Z * Z) (temp : Q) : reading :=
  mkReading (Some (PyNum (inject_Z pulse.1))) (Some (PyNum (inject_Z pulse.2)))
            (Some (PyNum temp)) (Some "C"%string).

(** [SensorManager.read_all] on what the two sensors returned.
    [led_ok n] tells whether the [n]-th call of [set_led] in this
    [read_all] completes ([true]) or raises. *)
Definition read_all (pulse_ox_data : option (Z * Z)) (temp_data : option Q)
    (led_ok : nat -> bool) : acquisition :=
  match pulse_ox_data, temp_data with
  | Some pulse, Some temp =>
    if led_ok 0%nat then AcqReading (combine pulse temp)
    else if led_ok 1%nat then AcqNone else AcqRaise
  | _, _ =>
    if led_ok 0%nat then AcqNone
    else if led_ok 1%nat then AcqNone else AcqRaise
  end.

(** The reading holds the three vitals. *)
Definition complete (readings : reading) : Prop :=
  is_Some (r_heart_rate readings) /\ is_Some (r_spo2 readings) /\
  is_Some (r_temperature readings).

(** A hundred polls with a pulse every 50 samples, red and infrared both
    at 100 with peaks of 120. *)
Definition steady_pulse : list (option (Q * Q)) :=
  (fun v => Some (v, v)) <$>
    ([100; 120] ++ replicate 49 100 ++ [120] ++ replicate 48 100)%Q.

(** The readings that a run of ticks brings, in order. *)
Definition readings_of (ticks : list (Z * acquisition)) : list reading :=
  omap (fun tick => match tick.2 with
                    | AcqReading readings => Some readings
                    | _ => None
                    end) ticks.

(* ===================================================================== *)
(** ** The local channel on the indicators ([alerts.py], lines 246-280;
       [sensors.py], lines 293-327) *)
(* ===================================================================== *)

Inductive pin : Type :=
| PinLedRed
| PinLedGreen
| PinLedBlue
| PinBuzzer.

(** What the indicators do to the outside: [GPIO.output(pin, level)] and
    [time.sleep(seconds)]. *)
Inductive gpio_event : Type :=
| GpioOutput (p : pin) (level : bool)
| Sleep (seconds : Q).

(** The [colors] dict of [set_led]. *)
Definition colors : list (string * (bool * bool * bool)) :=
  [("off", (false, false, false)); ("red", (true, false, false));
   ("green", (false, true, false)); ("blue", (false, false, true));
   ("yellow", (true, true, false)); ("cyan", (false, true, true));
   ("magenta", (true, false, true)); ("white", (true, true, true))]%string.

Fixpoint assoc {A : Type} (key : string) (d : list (string * A)) : option A :=
  match d with
  | [] => None
  | (k, v) :: d' => if String.eqb key k then Some v else assoc key d'
  end.

(** [StatusIndicators.set_led(color)]: nothing in simulation mode, nothing
    for a colour that is not in the dict. *)
Definition set_led (simulation_mode : bool) (color : string)
  : list gpio_event :=
  if simulation_mode then []
  else match assoc color colors with
       | Some (r, g, b) =>
         [GpioOutput PinLedRed r; GpioOutput PinLedGreen g;
          GpioOutput PinLedBlue b]
       | None => []
       end.

(** [StatusIndicators.beep(duration, count)] *)
Definition beep (simulation_mode : bool) (duration : Q) (count : nat)
  : list gpio_event :=
  if simulation_mode then []
  else concat (replicate count
                 [GpioOutput PinBuzzer true; Sleep duration;
                  GpioOutput PinBuzzer false; Sleep duration]).

(** The [led_colors] and [beep_patterns] dicts of [LocalAlert.send]. *)
Definition led_colors (s : severity) : string :=
  match s with
  | Critical => "red"
  | Warning => "yellow"
  | Info => "blue"
  end.

Definition beep_patterns (s : severity) : Q * nat :=
  match s with
  | Critical => (0.5%Q, 3%nat)
  | Warning => (0.2%Q, 2%nat)
  | Info => (0.1%Q, 1%nat)
  end.

(** [LocalAlert]: the two switches and the indicators object, if any,
    given by its [simulation_mode]. *)
Record local_alert : Type := mkLocalAlert {
  buzzer_enabled : bool;
  led_enabled : bool;
  indicators : option bool
}.

(** What the [try] block of [LocalAlert.send] sets out to do. *)
Definition local_plan (l : local_alert) (simulation_mode : bool)
    (a : alert) : list gpio_event :=
  (if led_enabled l then set_led simulation_mode (led_colors (a_severity a))
   else [])
  ++ (if buzzer_enabled l
      then beep simulation_mode (beep_patterns (a_severity a)).1
             (beep_patterns (a_severity a)).2
      else []).

(** Running a plan when the [fail_at]-th call of [GPIO.output] raises (none
    does for [None]): whether the plan completed, and what was done. *)
Fixpoint run_gpio (plan : list gpio_event) (fail_at : option nat)
  : bool * list gpio_event :=
  match plan with
  | [] => (true, [])
  | Sleep d :: rest =>
    let '(ok, done) := run_gpio rest fail_at in (ok, Sleep d :: done)
  | GpioOutput p level :: rest =>
    match fail_at with
    | Some O => (false, [])
    | Some (S k) =>
      let '(ok, done) := run_gpio rest (Some k) in
      (ok, GpioOutput p level :: done)
    | None =>
      let '(ok, done) := run_gpio rest None in
      (ok, GpioOutput p level :: done)
    end
  end.

(** [LocalAlert.send]: the returned boolean and the events on the pins. *)
Definition local_send (l : local_alert) (a : alert) (fail_at : option nat)
  : bool * list gpio_event :=
  match indicators l with
  | None => (false, [])
  | Some simulation_mode => run_gpio (local_plan l simulation_mode a) fail_at
  end.

(** The number of [GPIO.output] calls, the seconds slept and the last level
    written to the buzzer in a sequence of events. *)
Fixpoint outputs (events : list gpio_event) : nat :=
  match events with
  | [] => 0
  | GpioOutput _ _ :: rest => S (outputs rest)
  | Sleep _ :: rest => outputs rest
  end.

Fixpoint slept (events : list gpio_event) : Q :=
  match events with
  | [] => 0
  | Sleep d :: rest => d + slept rest
  | _ :: rest => slept rest
  end.

Fixpoint buzzer_level (level : bool) (events : list gpio_event) : bool :=
  match events with
  | [] => level
  | GpioOutput PinBuzzer l :: rest => buzzer_level l rest
  | _ :: rest => buzzer_level level rest
  end.

(* ===================================================================== *)
(** * Properties *)
(* ===================================================================== *)

(** ** Comparisons *)

Lemma Qltb_lt (a b : Q) : Qltb a b = true <-> (a < b)%Q.
Proof. unfold Qltb, Qlt. apply Z.ltb_lt. Qed.

Lemma Qltb_ge (a b : Q) : Qltb a b = false <-> (b <= a)%Q.
Proof. unfold Qltb, Qle. rewrite Z.ltb_ge. reflexivity. Qed.

Lemma Qgtb_gt (a b : Q) : Qgtb a b = true <-> (b < a)%Q.
Proof. apply Qltb_lt. Qed.

Lemma Qgtb_le (a b : Q) : Qgtb a b = false <-> (a <= b)%Q.
Proof. apply Qltb_ge. Qed.

(** Case analysis on every comparison of the goal, each turned into the
    order fact it decides. *)
Ltac case_cmp :=
  repeat match goal with
  | |- context [Qgtb ?a ?b] =>
    let E := fresh "E" in
    destruct (Qgtb a b) eqn:E;
    [apply Qgtb_gt in E | apply Qgtb_le in E]
  | |- context [Qltb ?a ?b] =>
    let E := fresh "E" in
    destruct (Qltb a b) eqn:E;
    [apply Qltb_lt in E | apply Qltb_ge in E]
  end.

(** ** Threshold classification *)

Section ClassifierFacts.

Variable th : thresholds.
Variable now : Z.

Lemma heart_rate_cases (readings : reading) (hr : Q) :
  r_heart_rate readings = Some (PyNum hr) ->
  exists out, _analyze_heart_rate th now readings = Ok out /\
    ((hr < hr_critical_min th)%Q ->
       one_alert out heart_rate Critical (CriticalBradycardia hr)) /\
    (~ (hr < hr_critical_min th)%Q -> (hr_critical_max th < hr)%Q ->
       one_alert out heart_rate Critical (CriticalTachycardia hr)) /\
    (~ (hr < hr_critical_min th)%Q -> ~ (hr_critical_max th < hr)%Q ->
     (hr < hr_min th)%Q ->
       one_alert out heart_rate Warning (Bradycardia hr)) /\
    (~ (hr < hr_critical_min th)%Q -> ~ (hr_critical_max th < hr)%Q ->
     ~ (hr < hr_min th)%Q -> (hr_max th < hr)%Q ->
       one_alert out heart_rate Warning (Tachycardia hr)) /\
    (~ (hr < hr_critical_min th)%Q -> ~ (hr_critical_max th < hr)%Q ->
     ~ (hr < hr_min th)%Q -> ~ (hr_max th < hr)%Q -> out = []).
Proof.
  intros Hr. unfold _analyze_heart_rate. rewrite Hr. cbn [as_num bind].
  fold (hr_limits th).
  fold (hr_critical_min th) (hr_critical_max th) (hr_min th) (hr_max th).
  case_cmp; eexists; (split; [reflexivity|]);
    repeat split; intros; try lra; try (eexists; repeat split; fail).
Qed.

Lemma spo2_cases (readings : reading) (v : Q) :
  r_spo2 readings = Some (PyNum v) ->
  exists out, _analyze_spo2 th now readings = Ok out /\
    ((v < spo2_critical_min th)%Q ->
       one_alert out spo2 Critical (CriticalHypoxemia v)) /\
    (~ (v < spo2_critical_min th)%Q -> (v < spo2_min th)%Q ->
       one_alert out spo2 Warning (LowBloodOxygen v)) /\
    (~ (v < spo2_critical_min th)%Q -> ~ (v < spo2_min th)%Q -> out = []).
Proof.
  intros Hr. unfold _analyze_spo2. rewrite Hr. cbn [as_num bind].
  fold (spo2_limits th). fold (spo2_critical_min th) (spo2_min th).
  case_cmp; eexists; (split; [reflexivity|]);
    repeat split; intros; try lra; try (eexists; repeat split; fail).
Qed.

Lemma temperature_cases (readings : reading) (raw : Q) :
  r_temperature readings = Some (PyNum raw) ->
  let temp := celsius readings raw in
  exists out, _analyze_temperature th now readings = Ok out /\
    ((temp < temp_critical_min th)%Q ->
       one_alert out temperature Critical (CriticalHypothermia temp)) /\
    (~ (temp < temp_critical_min th)%Q -> (temp_critical_max th < temp)%Q ->
       one_alert out temperature Critical (CriticalHyperthermia temp)) /\
    (~ (temp < temp_critical_min th)%Q -> ~ (temp_critical_max th < temp)%Q ->
     (temp < temp_min th)%Q ->
       one_alert out temperature Warning (LowBodyTemperature temp)) /\
    (~ (temp < temp_critical_min th)%Q -> ~ (temp_critical_max th < temp)%Q ->
     ~ (temp < temp_min th)%Q -> (temp_max th < temp)%Q ->
       ((temp < 38.5)%Q -> one_alert out temperature Warning (Fever temp)) /\
       ((38.5 <= temp)%Q -> one_alert out temperature Critical (Fever temp))) /\
    (~ (temp < temp_critical_min th)%Q -> ~ (temp_critical_max th < temp)%Q ->
     ~ (temp < temp_min th)%Q -> ~ (temp_max th < temp)%Q -> out = []).
Proof.
  intros Hr temp. unfold _analyze_temperature. rewrite Hr.
  cbn [as_num bind]. fold temp. fold (temp_limits th).
  fold (temp_critical_min th) (temp_critical_max th) (temp_min th)
       (temp_max th).
  case_cmp; eexists; (split; [reflexivity|]);
    repeat split; intros; try lra; try (eexists; repeat split; fail).
Qed.

End ClassifierFacts.

(** ** The shape of a detector's output *)





Ltac shape_tac :=
  first [ left; reflexivity | right; eexists; split; reflexivity ].

Lemma heart_rate_shape th now readings out :
  _analyze_heart_rate th now readings = Ok out -> shape heart_rate out.
Proof.
  unfold _analyze_heart_rate.
  destruct (r_heart_rate readings) as [[hr|]|]; cbn [as_num bind];
    try discriminate; case_cmp; intros [= <-]; shape_tac.
Qed.

Lemma spo2_shape th now readings out :
  _analyze_spo2 th now readings = Ok out -> shape spo2 out.
Proof.
  unfold _analyze_spo2.
  destruct (r_spo2 readings) as [[v|]|]; cbn [as_num bind];
    try discriminate; case_cmp; intros [= <-]; shape_tac.
Qed.

Lemma temperature_shape th now readings out :
  _analyze_temperature th now readings = Ok out -> shape temperature out.
Proof.
  unfold _analyze_temperature.
  destruct (r_temperature readings) as [[v|]|]; cbn [as_num bind];
    try discriminate; case_cmp; intros [= <-]; shape_tac.
Qed.

Lemma bind_Ok {A B : Type} (m : result A) (k : A -> result B) (b : B) :
  bind m k = Ok b -> exists a, m = Ok a /\ k a = Ok b.
Proof. destruct m as [a|]; [eauto | discriminate]. Qed.

Ltac bind_inv H :=
  let x := fresh "x" in
  let Hx := fresh "Hx" in
  apply bind_Ok in H; destruct H as (x & Hx & H).

Lemma heart_rate_trend_shape now h out :
  heart_rate_trend_alerts now h = Ok out -> shape heart_rate_trend out.
Proof.
  unfold heart_rate_trend_alerts. destruct (10 <=? length h)%nat.
  - intros H. bind_inv H. bind_inv H. revert H.
    case_cmp; intros [= <-]; shape_tac.
  - intros [= <-]; shape_tac.
Qed.

Lemma spo2_trend_shape now h out :
  spo2_trend_alerts now h = Ok out -> shape spo2_trend out.
Proof.
  unfold spo2_trend_alerts. destruct (10 <=? length h)%nat.
  - intros H. bind_inv H. bind_inv H. revert H.
    case_cmp; intros [= <-]; shape_tac.
  - intros [= <-]; shape_tac.
Qed.

Lemma temperature_trend_shape now h out :
  temperature_trend_alerts now h = Ok out -> shape temperature_trend out.
Proof.
  unfold temperature_trend_alerts. destruct (10 <=? length h)%nat.
  - intros H. bind_inv H. bind_inv H. revert H.
    case_cmp; intros [= <-]; shape_tac.
  - intros [= <-]; shape_tac.
Qed.

(** The raw alerts of one call, detector by detector. *)
Lemma raw_alerts_Ok s now readings out :
  raw_alerts s now readings = Ok out ->
  exists a1 a2 a3 t1 t2 t3,
    out = a1 ++ a2 ++ a3 ++ (t1 ++ t2 ++ t3) /\
    shape heart_rate a1 /\ shape spo2 a2 /\ shape temperature a3 /\
    shape heart_rate_trend t1 /\ shape spo2_trend t2 /\
    shape temperature_trend t3.
Proof.
  unfold raw_alerts, _analyze_trends. intros H.
  bind_inv H. bind_inv H. bind_inv H. bind_inv H.
  injection H as <-.
  bind_inv Hx2. bind_inv Hx2. bind_inv Hx2. injection Hx2 as <-.
  do 6 eexists. split; [reflexivity|].
  repeat split;
    eauto using heart_rate_shape, spo2_shape, temperature_shape,
      heart_rate_trend_shape, spo2_trend_shape, temperature_trend_shape.
Qed.














(** ** Cooldown *)

Lemma alert_key_inj (a b : alert) :
  alert_key a = alert_key b ->
  a_type a = a_type b /\ a_severity a = a_severity b.
Proof.
  unfold alert_key.
  destruct (a_type a), (a_severity a), (a_type b), (a_severity b);
    vm_compute; intros H; first [ split; reflexivity | discriminate H ].
Qed.

Lemma cooldown_step_spec cd now last filtered a :
  (in_cooldown cd now last a /\
   cooldown_step cd now (last, filtered) a = (last, filtered)) \/
  (~ in_cooldown cd now last a /\
   cooldown_step cd now (last, filtered) a
   = (<[alert_key a := now]> last, filtered ++ [a])).
Proof.
  unfold cooldown_step, in_cooldown.
  destruct (last !! alert_key a) as [prior|] eqn:E.
  - destruct (Qltb (total_seconds (now - prior)) cd) eqn:C.
    + left. apply Qltb_lt in C. eauto.
    + right. apply Qltb_ge in C. split; [|reflexivity].
      intros (p & [= <-] & L). lra.
  - right. split; [|reflexivity]. intros (p & [=] & _).
Qed.

Lemma cooldown_foldl_acc cd now l : forall last acc,
  foldl (cooldown_step cd now) (last, acc) l
  = ((_apply_cooldown cd now last l).1,
     acc ++ (_apply_cooldown cd now last l).2).
Proof.
  unfold _apply_cooldown.
  induction l as [|a l IH]; intros last acc; cbn [foldl].
  - simpl. by rewrite app_nil_r.
  - destruct (cooldown_step_spec cd now last acc a) as [[H' ->] | [H' ->]];
      destruct (cooldown_step_spec cd now last [] a) as [[H ->] | [H ->]];
      try (exfalso; tauto).
    + apply IH.
    + rewrite IH. rewrite (IH _ ([] ++ [a])). simpl.
      by rewrite <- app_assoc.
Qed.

Lemma _apply_cooldown_app cd now last l1 l2 :
  _apply_cooldown cd now last (l1 ++ l2)
  = let '(last1, out1) := _apply_cooldown cd now last l1 in
    let '(last2, out2) := _apply_cooldown cd now last1 l2 in
    (last2, out1 ++ out2).
Proof.
  unfold _apply_cooldown at 1. rewrite foldl_app.
  fold (_apply_cooldown cd now last l1).
  destruct (_apply_cooldown cd now last l1) as [last1 out1].
  rewrite cooldown_foldl_acc.
  by destruct (_apply_cooldown cd now last1 l2).
Qed.

Lemma _apply_cooldown_one cd now last a :
  _apply_cooldown cd now last [a] = cooldown_step cd now (last, []) a.
Proof. reflexivity. Qed.

(** C2. For every sequence of alerts passed through the cooldown filter,
    each alert [a] of the sequence is dropped if and only if its key has a
    recorded time [prior] with [now - prior] strictly less than the cooldown
    window; a dropped alert leaves the recorded times unchanged, a surviving
    alert is forwarded and sets the time of its key to [now], and the
    recorded time of any other key (the same vital with another severity in
    particular) is not touched.  The window of a new analyzer is 300
    seconds. *)
Theorem C2_cooldown_filter (cd : Q) (now : Z) (last : gmap string Z)
    (pre : list alert) (a : alert) (post : list alert) :
  exists last1 out1 last2 out_a last3 out3,
    _apply_cooldown cd now last pre = (last1, out1) /\
    _apply_cooldown cd now last1 [a] = (last2, out_a) /\
    _apply_cooldown cd now last2 post = (last3, out3) /\
    _apply_cooldown cd now last (pre ++ a :: post)
    = (last3, out1 ++ out_a ++ out3) /\
    (out_a = [] \/ out_a = [a]) /\
    (out_a = [] <-> in_cooldown cd now last1 a) /\
    (out_a = [] -> last2 = last1) /\
    (out_a = [a] -> last2 = <[alert_key a := now]> last1) /\
    (forall b, (a_type b, a_severity b) <> (a_type a, a_severity a) ->
       last2 !! alert_key b = last1 !! alert_key b) /\
    (forall th, alert_cooldown (new_analyzer th) = 300%Q).
Proof.
  pose proof (_apply_cooldown_app cd now last pre (a :: post)) as Happ.
  destruct (_apply_cooldown cd now last pre) as [last1 out1].
  destruct (_apply_cooldown cd now last1 [a]) as [last2 out_a] eqn:E2.
  destruct (_apply_cooldown cd now last2 post) as [last3 out3] eqn:E3.
  exists last1, out1, last2, out_a, last3, out3.
  split; [reflexivity|]. split; [exact E2|]. split; [exact E3|].
  split.
  { rewrite Happ.
    change (a :: post) with ([a] ++ post).
    rewrite _apply_cooldown_app, E2, E3. reflexivity. }
  rewrite _apply_cooldown_one in E2.
  destruct (cooldown_step_spec cd now last1 [] a) as [[H E] | [H E]];
    rewrite E in E2; injection E2 as <- <-.
  - repeat split; auto; try discriminate.
  - repeat split; auto; try discriminate; try (intros; exfalso; tauto).
    intros b Hb. apply lookup_insert_ne. intros K.
    apply alert_key_inj in K. destruct K as [K1 K2]. congruence.
Qed.

(** An alert whose key was recorded 299.999999 seconds ago is dropped by a
    300-second window. *)
Lemma C2_witness :
  exists last2,
    _apply_cooldown 300 299999999
      (<[alert_key (error_alert 0) := 0%Z]> ∅) [error_alert 299999999]
    = (last2, []).
Proof.
  destruct (C2_cooldown_filter 300 299999999
              (<[alert_key (error_alert 0) := 0%Z]> ∅) []
              (error_alert 299999999) [])
    as (last1 & out1 & last2 & out_a & last3 & out3
        & E1 & E2 & _ & _ & _ & Hiff & _).
  injection E1 as <- <-.
  exists last2. rewrite E2. f_equal. apply Hiff.
  exists 0%Z. split; [apply lookup_insert_eq | reflexivity].
Defined.

(** Cooldown idempotence: of two alerts with one key inside the window the
    second is dropped; once the window has elapsed the alert survives. *)
Example cooldown_idempotence :
  (_apply_cooldown 300 0 ∅ [error_alert 0; error_alert 0]).2 = [error_alert 0] /\
  (_apply_cooldown 300 300000000 (<[alert_key (error_alert 0) := 0%Z]> ∅)
     [error_alert 300000000]).2 = [error_alert 300000000].
Proof. split; vm_compute; reflexivity. Qed.

(** ** Trend detection *)














Section TrendFacts.

Variable now : Z.




(** With fewer than ten samples the values are not even looked at. *)
Lemma short_window_no_trend (h : list pyval) :
  (length h <= 9)%nat ->
  heart_rate_trend_alerts now h = Ok [] /\
  spo2_trend_alerts now h = Ok [] /\
  temperature_trend_alerts now h = Ok [].
Proof.
  intros Hl.
  unfold heart_rate_trend_alerts, spo2_trend_alerts, temperature_trend_alerts.
  assert ((10 <=? length h)%nat = false) as -> by (apply Nat.leb_gt; lia).
  auto.
Qed.

End TrendFacts.



(** ** Dispatch *)

Section DispatchFacts.

Variable transport : channel -> alert -> transport_outcome.

Lemma send_alert_manager (m : alert_manager) (a : alert) :
  (send_alert transport m a).1.1 = record_alert m a.
Proof. unfold send_alert. by destruct (a_severity a). Qed.

(** C6. A critical alert makes [send_alert] call exactly the email, SMS and
    local handlers, a warning alert exactly the email and local handlers,
    an info alert exactly the local handler, each once.  The calls made do
    not depend on what any transport does; the returned mapping holds, for
    each channel called, that handler's own outcome, decided by that
    channel's transport alone, and [False] for a channel not called. *)
Theorem C6_dispatch_routing (m : alert_manager) (a : alert) :
  exists m' res log,
    send_alert transport m a = (m', res, log) /\
    (a_severity a = Critical -> log = [ChEmail; ChSms; ChLocal]) /\
    (a_severity a = Warning -> log = [ChEmail; ChLocal]) /\
    (a_severity a = Info -> log = [ChLocal]) /\
    (forall ch, ch ∈ log -> results_get res ch = send transport m' ch a) /\
    (forall ch, ch ∉ log -> results_get res ch = false) /\
    (forall transport', (send_alert transport' m a).2 = log) /\
    (forall transport' ch, transport' ch a = transport ch a ->
       results_get (send_alert transport' m a).1.2 ch = results_get res ch).
Proof.
  unfold send_alert, attempt.
  destruct (a_severity a); cbn [app]; do 3 eexists;
    (split; [reflexivity|]);
    repeat split; try discriminate; try reflexivity.
  all: try (intros ch Hch; destruct ch; try reflexivity; exfalso;
            rewrite ?elem_of_cons, ?elem_of_nil in Hch;
            intuition discriminate).
  all: intros transport' ch E; destruct ch; cbn; unfold send;
    try rewrite E; reflexivity.
Qed.

End DispatchFacts.

(** A critical alert while the SMS transport raises: all three handlers
    are still called, in the order of the source. *)
Lemma C6_witness :
  (send_alert sms_down (new_manager true true true) (error_alert 0)).2
  = [ChEmail; ChSms; ChLocal].
Proof.
  destruct (C6_dispatch_routing sms_down (new_manager true true true)
              (error_alert 0))
    as (m' & res & log & E & Hc & _).
  rewrite E. apply Hc. reflexivity.
Defined.

(** ** Exceptions stop at the tick boundary *)

(** C8. An exception inside the body of [analyze] is caught: the call
    returns the empty alert list (and a tick that analyzes such a reading
    completes, dispatching nothing).  [send_alert] returns a mapping for
    every alert whatever the transports do; a channel whose transport
    raises, or whose handler is switched off, is reported [False]. *)
Theorem C8_no_exception_escapes
    (transport : channel -> alert -> transport_outcome)
    (s : analyzer) (now : Z) (readings : reading)
    (m : alert_manager) (a : alert) :
  (forall s', analyze_body s now readings = (s', Raise) ->
     analyze s now readings = (s', []) /\
     forall errors,
       tick transport (mkMonitor s m errors) now (AcqReading readings)
       = (mkMonitor s' m 0, [])) /\
  (exists m' res log, send_alert transport m a = (m', res, log) /\
     (forall ch, transport ch a = Failed -> results_get res ch = false) /\
     (forall ch, handler_enabled m ch = false -> results_get res ch = false) /\
     ((forall ch, transport ch a = Failed) ->
        res = mkResults false false false)).
Proof.
  split.
  - intros s' H. unfold tick, analyze. cbn [mon_analyzer mon_manager].
    rewrite H. split; [reflexivity | intros errors; reflexivity].
  - unfold send_alert, attempt, send.
    destruct (a_severity a); cbn [app]; do 3 eexists;
      (split; [reflexivity|]); repeat split.
    all: try (intros ch H; destruct ch; cbn in *; rewrite ?H;
              try reflexivity; repeat case_match; reflexivity).
    all: intros H; cbn; rewrite !H; repeat case_match; reflexivity.
Qed.

(** A reading whose heart rate is [None]: the comparison raises inside
    [analyze], which returns the empty list. *)
Lemma C8_witness :
  (analyze (new_analyzer default_thresholds) 0
     (mkReading (Some PyOther) (Some (PyNum 80)) None None)).2 = [].
Proof.
  destruct (C8_no_exception_escapes sms_down
              (new_analyzer default_thresholds) 0
              (mkReading (Some PyOther) (Some (PyNum 80)) None None)
              (new_manager false false false) (error_alert 0))
    as (H & _).
  destruct (H _ eq_refl) as (E & _). rewrite E. reflexivity.
Defined.

(** ** Alert history *)

Lemma last_n_last_n_app {A : Type} (n : nat) (l r : list A) :
  last_n n (last_n n l ++ r) = last_n n (l ++ r).
Proof.
  unfold last_n. rewrite !length_app, length_drop.
  destruct (decide (length l <= n)%nat) as [Hle|Hgt].
  - replace (length l - n)%nat with 0%nat by lia. rewrite drop_0.
    f_equal. lia.
  - replace (length l + length r - n)%nat
      with ((length l - n) + (length l - (length l - n) + length r - n))%nat
      by lia.
    rewrite <- drop_drop. f_equal.
    rewrite drop_app_le by lia. reflexivity.
Qed.

Section HistoryFacts.

Variable transport : channel -> alert -> transport_outcome.

Lemma record_alert_history (m : alert_manager) (a : alert) :
  (length (alert_history m) <= max_history m)%nat ->
  alert_history (record_alert m a)
  = last_n (max_history m) (alert_history m ++ [a]).
Proof.
  intros Hinv. unfold record_alert, last_n. cbn [alert_history].
  rewrite length_app. cbn [length].
  destruct (max_history m <? length (alert_history m) + 1)%nat eqn:C.
  - apply Nat.ltb_lt in C. f_equal. lia.
  - apply Nat.ltb_ge in C.
    replace (length (alert_history m) + 1 - max_history m)%nat with 0%nat
      by lia.
    by rewrite drop_0.
Qed.

Lemma last_n_length {A : Type} (n : nat) (l : list A) :
  (length (last_n n l) <= n)%nat.
Proof. unfold last_n. rewrite length_drop. lia. Qed.

Lemma send_alerts_cons (m : alert_manager) (a : alert) (alerts : list alert) :
  send_alerts transport m (a :: alerts)
  = send_alerts transport (record_alert m a) alerts.
Proof. unfold send_alerts. cbn [foldl]. by rewrite send_alert_manager. Qed.

Lemma send_alerts_history (alerts : list alert) : forall m,
  (length (alert_history m) <= max_history m)%nat ->
  alert_history (send_alerts transport m alerts)
  = last_n (max_history m) (alert_history m ++ alerts) /\
  max_history (send_alerts transport m alerts) = max_history m.
Proof.
  induction alerts as [|a alerts IH]; intros m Hinv.
  - cbn. rewrite app_nil_r. unfold last_n.
    replace (length (alert_history m) - max_history m)%nat with 0%nat by lia.
    by rewrite drop_0.
  - rewrite send_alerts_cons.
    assert (Hmax : max_history (record_alert m a) = max_history m)
      by reflexivity.
    assert (Hinv' : (length (alert_history (record_alert m a))
                     <= max_history (record_alert m a))%nat).
    { rewrite record_alert_history by exact Hinv. apply last_n_length. }
    destruct (IH (record_alert m a) Hinv') as [Hh Hm].
    rewrite Hh, Hm, Hmax, record_alert_history by exact Hinv.
    rewrite last_n_last_n_app, <- app_assoc. by split.
Qed.

(** C9. After any sequence of [send_alert] calls on a manager whose
    history is within its capacity (1000 for a new manager, whose history
    is empty), the history is the last [max_history] alerts of the old
    history followed by the dispatched alerts, in dispatch order: every
    dispatched alert is appended once, the oldest are evicted first, and
    the length never exceeds the capacity. *)
Theorem C9_history_bounded (m : alert_manager) (alerts : list alert) :
  (length (alert_history m) <= max_history m)%nat ->
  alert_history (send_alerts transport m alerts)
  = drop (length (alert_history m ++ alerts) - max_history m)
         (alert_history m ++ alerts) /\
  (length (alert_history (send_alerts transport m alerts))
   <= max_history m)%nat /\
  (forall email sms indicators,
     max_history (new_manager email sms indicators) = 1000%nat /\
     alert_history (new_manager email sms indicators) = []).
Proof.
  intros Hinv. destruct (send_alerts_history alerts m Hinv) as [Hh _].
  split; [exact Hh|]. split; [|by split].
  rewrite Hh. apply last_n_length.
Qed.

End HistoryFacts.

(** 1001 dispatches to a new manager: the first alert is evicted, the other
    1000 remain in dispatch order. *)
Lemma C9_witness :
  alert_history
    (send_alerts sms_down (new_manager true true true)
       (error_alert <$> seqZ 0 1001))
  = error_alert <$> seqZ 1 1000.
Proof.
  destruct (C9_history_bounded sms_down (new_manager true true true)
              (error_alert <$> seqZ 0 1001)) as (H & _).
  - simpl. lia.
  - rewrite H. vm_compute. reflexivity.
Defined.

(** ** The temperature window holds raw values *)


Lemma analyze_histories (s : analyzer) (now : Z) (readings : reading) :
  heart_rate_history (analyze s now readings).1
  = update_history (heart_rate_history s) (r_heart_rate readings) /\
  spo2_history (analyze s now readings).1
  = update_history (spo2_history s) (r_spo2 readings) /\
  temp_history (analyze s now readings).1
  = update_history (temp_history s) (r_temperature readings).
Proof.
  unfold analyze, analyze_body.
  destruct (raw_alerts (ingest s readings) now readings) as [alerts|].
  - destruct (_apply_cooldown _ _ _ alerts) as [last filtered]. by cbn.
  - by cbn.
Qed.



(** ** The consecutive-failure counter *)

Section MonitorFacts.

Variable transport : channel -> alert -> transport_outcome.


(** C4: ticks on which [read_all] raises are counted, and however many of
    them follow one another, the counter passes 5 without any alert being
    dispatched and without being reset. *)
Theorem C4_raising_ticks_never_escalate (m : monitor) (now : Z) (n : nat) :
  run transport m (replicate n (now, AcqRaise))
  = (mkMonitor (mon_analyzer m) (mon_manager m) (consecutive_errors m + n),
     replicate n []).
Proof.
  revert m. induction n as [|n IH]; intros m; cbn [replicate run tick].
  - rewrite Nat.add_0_r. by destruct m.
  - rewrite IH. cbn. do 3 f_equal. lia.
Qed.

End MonitorFacts.

(** Five ticks in a row without reading, then a sixth: the system alert is
    dispatched on the fifth tick only, and the counter starts again. *)
Example five_failed_reads :
  let '(m, sent) :=
    run sms_down (new_monitor default_thresholds false false)
      (replicate 6 (0%Z, AcqNone)) in
  sent = [[]; []; []; []; [error_alert 0]; []] /\ consecutive_errors m = 1%nat.
Proof. vm_compute. split; reflexivity. Qed.

(** Five ticks in a row on which [read_all] raises: no alert, counter 5. *)
Example five_raising_reads :
  let '(m, sent) :=
    run sms_down (new_monitor default_thresholds false false)
      (replicate 5 (0%Z, AcqRaise)) in
  sent = [[]; []; []; []; []] /\ consecutive_errors m = 5%nat.
Proof. vm_compute. split; reflexivity. Qed.

(** ** Scenarios on the whole analyzer *)

(** Heart rate 45 under the default bounds: one bradycardia warning; the
    same reading 100 seconds later is silenced by the cooldown, and raises
    the warning again once 300 seconds have passed. *)
Example bradycardia_then_cooldown :
  three_calls (mkReading (Some (PyNum 45)) (Some (PyNum 98))
                 (Some (PyNum 36.8)) None) 0 100 300
  = ([mkAlert heart_rate Warning (Bradycardia 45) (Some 45%Q) (Some 60%Q) 0],
     [],
     [mkAlert heart_rate Warning (Bradycardia 45) (Some 45%Q) (Some 60%Q)
              300000000]).
Proof. vm_compute. reflexivity. Qed.

(** After 100 appends a window holds the last 60 values, oldest first. *)
Example window_keeps_last_60 :
  foldl deque_append [] (seq 0 100) = seq 40 60.
Proof. vm_compute. reflexivity. Qed.

(* ===================================================================== *)
(** * Further properties *)
(* ===================================================================== *)

(** ** Rolling windows *)

Lemma deque_append_last_n {A : Type} (d : list A) (x : A) :
  (length d <= maxlen)%nat ->
  deque_append d x = last_n maxlen (d ++ [x]).
Proof.
  intros Hd. unfold deque_append, last_n. rewrite length_app. cbn [length].
  destruct (maxlen <=? length d)%nat eqn:C.
  - apply Nat.leb_le in C.
    replace (length d + 1 - maxlen)%nat with 1%nat by lia.
    rewrite drop_app_le by (unfold maxlen in *; lia). reflexivity.
  - apply Nat.leb_gt in C.
    replace (length d + 1 - maxlen)%nat with 0%nat by lia.
    by rewrite drop_0.
Qed.

Lemma foldl_deque_append {A : Type} (xs : list A) : forall d,
  (length d <= maxlen)%nat ->
  foldl deque_append d xs = last_n maxlen (d ++ xs).
Proof.
  induction xs as [|x xs IH]; intros d Hd; cbn [foldl].
  - rewrite app_nil_r. unfold last_n.
    replace (length d - maxlen)%nat with 0%nat by lia. by rewrite drop_0.
  - rewrite IH.
    + rewrite deque_append_last_n by exact Hd.
      rewrite last_n_last_n_app, <- app_assoc. reflexivity.
    + rewrite deque_append_last_n by exact Hd. apply last_n_length.
Qed.

Lemma update_history_bounded (h : list pyval) (v : option pyval) :
  (length h <= maxlen)%nat -> (length (update_history h v) <= maxlen)%nat.
Proof.
  intros Hh. destruct v as [x|]; cbn [update_history]; [|exact Hh].
  rewrite deque_append_last_n by exact Hh. apply last_n_length.
Qed.

Lemma analyze_windows_bounded (s : analyzer) (now : Z) (readings : reading) :
  windows_bounded s -> windows_bounded (analyze s now readings).1.
Proof.
  intros (H1 & H2 & H3). unfold windows_bounded.
  destruct (analyze_histories s now readings) as (-> & -> & ->).
  auto using update_history_bounded.
Qed.

Lemma analyze_all_windows_bounded (calls : list (Z * reading)) : forall s,
  windows_bounded s -> windows_bounded (analyze_all s calls).1.
Proof.
  induction calls as [|[now readings] calls IH]; intros s Hs;
    cbn [analyze_all]; [exact Hs|].
  pose proof (analyze_windows_bounded s now readings Hs) as H1.
  destruct (analyze s now readings) as [s1 out].
  specialize (IH s1 H1).
  destruct (analyze_all s1 calls) as [s2 outs]. exact IH.
Qed.

(** X1. A window that is within its capacity of 60 and receives any
    sequence of samples holds the last 60 of its old samples followed by
    the new ones, oldest first; and after any sequence of [analyze] calls
    on a new analyzer each of the three windows holds at most 60
    samples. *)
Theorem X1_window_keeps_last_samples (d : list pyval) (xs : list pyval)
    (th : thresholds) (calls : list (Z * reading)) :
  (length d <= 60)%nat ->
  foldl deque_append d xs = drop (length (d ++ xs) - 60) (d ++ xs) /\
  (length (foldl deque_append d xs) <= 60)%nat /\
  windows_bounded (analyze_all (new_analyzer th) calls).1.
Proof.
  intros Hd. pose proof (foldl_deque_append xs d Hd) as H.
  split; [exact H|]. split.
  - rewrite H. apply last_n_length.
  - apply analyze_all_windows_bounded. unfold windows_bounded. cbn.
    unfold maxlen. lia.
Qed.

(** 61 appends to an empty window: the first sample is gone. *)
Lemma X1_witness :
  foldl deque_append [] (PyNum <$> (inject_Z <$> seqZ 0 61))
  = PyNum <$> (inject_Z <$> seqZ 1 60).
Proof.
  destruct (X1_window_keeps_last_samples []
              (PyNum <$> (inject_Z <$> seqZ 0 61))
              default_thresholds []) as (H & _).
  - simpl. lia.
  - rewrite H. vm_compute. reflexivity.
Defined.

(** ** The cooldown inside one call of [analyze] *)

Lemma cooling_in_cooldown cd now last a :
  cooling cd now last a = true <-> in_cooldown cd now last a.
Proof.
  unfold cooling, in_cooldown. destruct (last !! alert_key a) as [prior|].
  - rewrite Qltb_lt. split; [eauto | intros (p & [= <-] & H); exact H].
  - split; [discriminate | intros (p & [=] & _)].
Qed.

Lemma cooldown_step_cooling cd now last filtered a :
  cooldown_step cd now (last, filtered) a
  = if cooling cd now last a then (last, filtered)
    else (<[alert_key a := now]> last, filtered ++ [a]).
Proof.
  unfold cooldown_step, cooling.
  destruct (last !! alert_key a) as [prior|]; reflexivity.
Qed.

Lemma _apply_cooldown_cons cd now last a alerts :
  _apply_cooldown cd now last (a :: alerts)
  = if cooling cd now last a then _apply_cooldown cd now last alerts
    else let '(last', out) :=
           _apply_cooldown cd now (<[alert_key a := now]> last) alerts in
         (last', a :: out).
Proof.
  change (a :: alerts) with ([a] ++ alerts).
  rewrite _apply_cooldown_app, _apply_cooldown_one, cooldown_step_cooling.
  destruct (cooling cd now last a).
  - by destruct (_apply_cooldown cd now last alerts).
  - by destruct (_apply_cooldown cd now (<[alert_key a:=now]> last) alerts).
Qed.

(** Alerts with pairwise different keys do not suppress each other: each
    is tested against the times recorded before the call. *)
Lemma _apply_cooldown_NoDup cd now last0 (alerts : list alert) : forall last,
  NoDup (alert_key <$> alerts) ->
  (forall b, b ∈ alerts -> last !! alert_key b = last0 !! alert_key b) ->
  _apply_cooldown cd now last alerts
  = (record_all now last
       (filter (fun a => cooling cd now last0 a = false) alerts),
     filter (fun a => cooling cd now last0 a = false) alerts).
Proof.
  induction alerts as [|a alerts IH]; intros last Hnd Hlast; [reflexivity|].
  rewrite fmap_cons in Hnd. apply NoDup_cons in Hnd as [Hnotin Hnd].
  rewrite _apply_cooldown_cons.
  assert (Ha : cooling cd now last a = cooling cd now last0 a).
  { unfold cooling. rewrite Hlast by (left). reflexivity. }
  rewrite Ha. destruct (cooling cd now last0 a) eqn:C.
  - rewrite filter_cons_False by (rewrite C; discriminate).
    apply IH; [exact Hnd|]. intros b Hb. apply Hlast. by right.
  - rewrite filter_cons_True by exact C.
    rewrite (IH (<[alert_key a:=now]> last)); [reflexivity | exact Hnd|].
    intros b Hb. rewrite lookup_insert_ne.
    + apply Hlast. by right.
    + intros E. apply Hnotin. rewrite E. apply list_elem_of_fmap. eauto.
Qed.

Lemma record_all_lookup now (alerts : list alert) : forall last k,
  record_all now last alerts !! k
  = if decide (k ∈ alert_key <$> alerts) then Some now else last !! k.
Proof.
  unfold record_all.
  induction alerts as [|a alerts IH]; intros last k; cbn [foldl].
  - rewrite decide_False; [reflexivity | apply not_elem_of_nil].
  - rewrite IH, fmap_cons.
    destruct (decide (k ∈ alert_key <$> alerts)) as [Hin|Hnin].
    + rewrite decide_True; [reflexivity | by right].
    + destruct (decide (k = alert_key a)) as [->|Hne].
      * rewrite lookup_insert_eq, decide_True; [reflexivity | by left].
      * rewrite lookup_insert_ne by congruence.
        rewrite decide_False; [reflexivity|].
        rewrite elem_of_cons. tauto.
Qed.

Lemma NoDup_fmap_coarser {A B C : Type} (f : A -> B) (g : A -> C)
    (l : list A) :
  (forall x y, g x = g y -> f x = f y) ->
  NoDup (f <$> l) -> NoDup (g <$> l).
Proof.
  intros Hfg. induction l as [|x l IH]; [constructor|].
  rewrite !fmap_cons, !NoDup_cons. intros [Hx Hl]. split; [|auto].
  intros Hin. apply Hx. apply list_elem_of_fmap in Hin as (y & Hy & Hyl).
  apply list_elem_of_fmap. exists y. split; [by apply Hfg | exact Hyl].
Qed.

Lemma shape_types ty out :
  shape ty out -> a_type <$> out = [] \/ a_type <$> out = [ty].
Proof. intros [-> | (a & -> & <-)]; [by left | by right]. Qed.

Lemma raw_alerts_NoDup s now readings raw :
  raw_alerts s now readings = Ok raw -> NoDup (alert_key <$> raw).
Proof.
  intros H. apply (NoDup_fmap_coarser a_type).
  { intros x y E. by apply alert_key_inj in E as [E _]. }
  apply raw_alerts_Ok in H.
  destruct H as (a1 & a2 & a3 & t1 & t2 & t3 & -> & H1 & H2 & H3 & H4 & H5 & H6).
  rewrite !fmap_app.
  destruct (shape_types _ _ H1) as [-> | ->],
           (shape_types _ _ H2) as [-> | ->],
           (shape_types _ _ H3) as [-> | ->],
           (shape_types _ _ H4) as [-> | ->],
           (shape_types _ _ H5) as [-> | ->],
           (shape_types _ _ H6) as [-> | ->];
    apply (bool_decide_unpack _); reflexivity.
Qed.

Lemma analyze_Ok (s : analyzer) (now : Z) (readings : reading)
    (raw : list alert) :
  raw_alerts (ingest s readings) now readings = Ok raw ->
  (analyze s now readings).2
  = filter (fun a => cooling (alert_cooldown s) now (last_alert_time s) a
                     = false) raw /\
  last_alert_time (analyze s now readings).1
  = record_all now (last_alert_time s)
      (filter (fun a => cooling (alert_cooldown s) now (last_alert_time s) a
                        = false) raw) /\
  alert_cooldown (analyze s now readings).1 = alert_cooldown s.
Proof.
  intros Hraw. unfold analyze, analyze_body. rewrite Hraw.
  cbn [alert_cooldown last_alert_time ingest].
  rewrite (_apply_cooldown_NoDup _ _ (last_alert_time s))
    by (eauto using raw_alerts_NoDup).
  cbn. auto.
Qed.

Lemma analyze_Raise (s : analyzer) (now : Z) (readings : reading) :
  raw_alerts (ingest s readings) now readings = Raise ->
  analyze s now readings = (ingest s readings, []).
Proof. intros H. unfold analyze, analyze_body. by rewrite H. Qed.

(** X2. Inside one [analyze] call the alerts do not suppress each other:
    the detectors' alerts have pairwise different keys, and the call
    returns, in order, exactly those whose own key has no recorded time
    less than the cooldown before [now]; afterwards the recorded time of
    each returned alert's key is [now] and every other key keeps its
    time. *)
Theorem X2_analyze_filters_by_earlier_calls (s : analyzer) (now : Z)
    (readings : reading) (raw : list alert) :
  raw_alerts (ingest s readings) now readings = Ok raw ->
  NoDup (alert_key <$> raw) /\
  (forall a, a ∈ (analyze s now readings).2 <->
     a ∈ raw /\ ~ in_cooldown (alert_cooldown s) now (last_alert_time s) a) /\
  (analyze s now readings).2
  = filter (fun a => cooling (alert_cooldown s) now (last_alert_time s) a
                     = false) raw /\
  (forall k, last_alert_time (analyze s now readings).1 !! k
     = if decide (k ∈ alert_key <$> (analyze s now readings).2)
       then Some now else last_alert_time s !! k).
Proof.
  intros Hraw. destruct (analyze_Ok s now readings raw Hraw) as (Ho & Hl & _).
  split; [by eapply raw_alerts_NoDup|]. split; [|split; [exact Ho|]].
  - intros a. rewrite Ho, list_elem_of_filter, <- cooling_in_cooldown.
    destruct (cooling _ _ _ a); intuition congruence.
  - intros k. rewrite Hl, Ho. apply record_all_lookup.
Qed.

(** A hypoxemic, bradycardic reading on a new analyzer: both alerts are
    returned. *)
Lemma X2_witness :
  a_message <$>
    (analyze (new_analyzer default_thresholds) 0
       (mkReading (Some (PyNum 45)) (Some (PyNum 88)) None None)).2
  = [Bradycardia 45; CriticalHypoxemia 88].
Proof.
  destruct (X2_analyze_filters_by_earlier_calls
              (new_analyzer default_thresholds) 0
              (mkReading (Some (PyNum 45)) (Some (PyNum 88)) None None)
              [mkAlert heart_rate Warning (Bradycardia 45) (Some 45%Q)
                       (Some 60%Q) 0;
               mkAlert spo2 Critical (CriticalHypoxemia 88) (Some 88%Q)
                       (Some 90%Q) 0]
              eq_refl) as (_ & _ & H & _).
  rewrite H. vm_compute. reflexivity.
Defined.

(** ** No alert is repeated inside the cooldown, over any run of calls *)

Lemma total_seconds_Qmake (d : Z) : (total_seconds d == d # 1000000)%Q.
Proof.
  unfold total_seconds, Qdiv, Qmult, Qinv, inject_Z, Qeq. cbn. lia.
Qed.

Lemma total_seconds_le (d1 d2 : Z) :
  (d1 <= d2)%Z -> (total_seconds d1 <= total_seconds d2)%Q.
Proof.
  intros H. rewrite !total_seconds_Qmake. unfold Qle. cbn. lia.
Qed.

Lemma total_seconds_nonneg (d : Z) :
  (0 <= total_seconds d)%Q -> (0 <= d)%Z.
Proof. rewrite total_seconds_Qmake. unfold Qle. cbn. lia. Qed.

Lemma spaced_app cd (E1 E2 : list (Z * alert)) :
  spaced cd (E1 ++ E2) <->
  spaced cd E1 /\ spaced cd E2 /\
  forall ta tb, ta ∈ E1 -> tb ∈ E2 -> alert_key ta.2 = alert_key tb.2 ->
                (cd <= total_seconds (tb.1 - ta.1))%Q.
Proof.
  induction E1 as [|x E1 IH]; cbn [app spaced].
  - split; [intros H; repeat split; auto; intros ? ? H'; by apply elem_of_nil in H'
           | tauto].
  - rewrite IH, Forall_app, !Forall_forall. split.
    + intros ((H1 & H2) & H3 & H4 & H5). repeat split; auto.
      intros ta tb Ha Hb. apply elem_of_cons in Ha as [->|Ha]; auto.
    + intros ((H1 & H2) & H3 & H4). repeat split; auto.
      * intros tb Hb. apply H4; [by left | exact Hb].
      * intros ta tb Ha Hb. apply H4; [by right | exact Hb].
Qed.

Lemma spaced_same_time cd now (out : list alert) :
  NoDup (alert_key <$> out) -> spaced cd ((fun a => (now, a)) <$> out).
Proof.
  induction out as [|a out IH]; [constructor|].
  rewrite fmap_cons, NoDup_cons. intros [Hnin Hnd].
  cbn [fmap list_fmap spaced]. split; [|auto].
  apply Forall_forall. intros tb Hb Hk. exfalso. apply Hnin.
  apply list_elem_of_fmap in Hb as (b & -> & Hb). cbn in Hk. rewrite Hk.
  apply list_elem_of_fmap. eauto.
Qed.

Lemma spaced_decompose cd (E l1 l2 l3 : list (Z * alert)) ta tb :
  spaced cd E -> E = l1 ++ ta :: l2 ++ tb :: l3 ->
  alert_key ta.2 = alert_key tb.2 ->
  (cd <= total_seconds (tb.1 - ta.1))%Q.
Proof.
  intros H -> Hk. apply spaced_app in H as (_ & H & _).
  cbn [spaced] in H. destruct H as [H _].
  rewrite Forall_forall in H. apply H; [|exact Hk].
  apply elem_of_app. right. by left.
Qed.

Lemma NoDup_filter_fmap {A B : Type} (f : A -> B) (P : A -> Prop)
    `{!forall x, Decision (P x)} (l : list A) :
  NoDup (f <$> l) -> NoDup (f <$> filter P l).
Proof.
  induction l as [|x l IH]; [by intros|].
  rewrite fmap_cons, NoDup_cons. intros [Hx Hl].
  destruct (decide (P x)) as [Hp|Hp].
  - rewrite filter_cons_True by exact Hp. rewrite fmap_cons, NoDup_cons.
    split; [|auto]. intros Hin. apply Hx.
    apply list_elem_of_fmap in Hin as (y & -> & Hy).
    apply list_elem_of_filter in Hy as [_ Hy].
    apply list_elem_of_fmap. eauto.
  - rewrite filter_cons_False by exact Hp. auto.
Qed.

(** One call keeps what has been emitted spaced and covered. *)
Lemma analyze_spaced (s : analyzer) (now : Z) (readings : reading)
    (E : list (Z * alert)) :
  (0 <= alert_cooldown s)%Q ->
  spaced (alert_cooldown s) E -> covered (last_alert_time s) E ->
  let E' := E ++ ((fun a => (now, a)) <$> (analyze s now readings).2) in
  spaced (alert_cooldown s) E' /\
  covered (last_alert_time (analyze s now readings).1) E' /\
  alert_cooldown (analyze s now readings).1 = alert_cooldown s.
Proof.
  intros Hcd Hsp Hcov E'. subst E'.
  destruct (raw_alerts (ingest s readings) now readings) as [raw|] eqn:Hraw.
  2:{ rewrite (analyze_Raise _ _ _ Hraw). cbn. rewrite app_nil_r. auto. }
  destruct (analyze_Ok s now readings raw Hraw) as (Ho & Hl & Hc).
  pose proof (raw_alerts_NoDup _ _ _ _ Hraw) as Hnd.
  rewrite Ho, Hl, Hc.
  set (kept := filter _ raw).
  assert (Hkept : NoDup (alert_key <$> kept))
    by (by apply NoDup_filter_fmap).
  assert (Hnew : forall b prior, b ∈ kept ->
            last_alert_time s !! alert_key b = Some prior ->
            (alert_cooldown s <= total_seconds (now - prior))%Q).
  { intros b prior Hb Hp. apply list_elem_of_filter in Hb as [Hb _].
    unfold cooling in Hb. rewrite Hp in Hb. by apply Qltb_ge in Hb. }
  unfold covered in *. rewrite Forall_forall in Hcov.
  split; [|split; [|reflexivity]].
  - apply spaced_app. split; [exact Hsp|]. split; [by apply spaced_same_time|].
    intros ta tb Ha Hb Hk.
    apply list_elem_of_fmap in Hb as (b & -> & Hb). cbn in Hk |- *.
    destruct (Hcov ta Ha) as (t' & Ht' & Hle).
    rewrite Hk in Ht'. specialize (Hnew b t' Hb Ht').
    eapply Qle_trans; [exact Hnew|]. apply total_seconds_le. lia.
  - apply Forall_app. split; apply Forall_forall.
    + intros ta Ha. destruct (Hcov ta Ha) as (t' & Ht' & Hle).
      rewrite record_all_lookup.
      destruct (decide (alert_key ta.2 ∈ alert_key <$> kept)) as [Hin|Hnin];
        [|eauto].
      exists now. split; [reflexivity|].
      apply list_elem_of_fmap in Hin as (b & Hk & Hb).
      rewrite Hk in Ht'. specialize (Hnew b t' Hb Ht').
      assert (0 <= total_seconds (now - t'))%Q by (eapply Qle_trans; eauto).
      apply total_seconds_nonneg in H. lia.
    + intros tb Hb. apply list_elem_of_fmap in Hb as (b & -> & Hb). cbn.
      exists now. split; [|lia].
      rewrite record_all_lookup, decide_True; [reflexivity|].
      apply list_elem_of_fmap. eauto.
Qed.

Lemma analyze_all_spaced (calls : list (Z * reading)) :
  forall (s : analyzer) (E : list (Z * alert)),
  (0 <= alert_cooldown s)%Q ->
  spaced (alert_cooldown s) E -> covered (last_alert_time s) E ->
  spaced (alert_cooldown s) (E ++ emissions (analyze_all s calls).2).
Proof.
  induction calls as [|[now readings] calls IH]; intros s E Hcd Hsp Hcov;
    cbn [analyze_all].
  - cbn. by rewrite app_nil_r.
  - destruct (analyze_spaced s now readings E Hcd Hsp Hcov) as (H1 & H2 & H3).
    destruct (analyze s now readings) as [s1 out]. cbn [fst snd] in *.
    specialize (IH s1 (E ++ ((fun a => (now, a)) <$> out))).
    rewrite H3 in IH. specialize (IH Hcd H1 H2).
    destruct (analyze_all s1 calls) as [s2 outs]. cbn [snd] in *.
    unfold emissions. rewrite bind_cons. fold (emissions outs).
    rewrite app_assoc. exact IH.
Qed.

(** X3. Over any sequence of [analyze] calls on one analyzer with a
    cooldown that is not negative (300 seconds on a new analyzer), two
    returned alerts of the same type and severity are never less than the
    cooldown apart: the later one comes from a later call, whose clock
    reading is at least the cooldown after the earlier call's. *)
Theorem X3_alerts_spaced_by_cooldown (s : analyzer)
    (calls : list (Z * reading)) (l1 l2 l3 : list (Z * alert))
    (t1 t2 : Z) (a b : alert) :
  (0 <= alert_cooldown s)%Q ->
  emissions (analyze_all s calls).2 = l1 ++ (t1, a) :: l2 ++ (t2, b) :: l3 ->
  a_type a = a_type b -> a_severity a = a_severity b ->
  (alert_cooldown s <= total_seconds (t2 - t1))%Q.
Proof.
  intros Hcd HE Ht Hs.
  pose proof (analyze_all_spaced calls s [] Hcd I (List.Forall_nil _)) as H.
  cbn [app] in H.
  eapply (spaced_decompose _ _ _ _ _ (t1, a) (t2, b) H HE).
  unfold alert_key. cbn. by rewrite Ht, Hs.
Qed.

(** The same low heart rate at time 0 and 300 seconds later: both calls
    return the warning, 300 seconds apart. *)
Lemma X3_witness :
  (alert_cooldown (new_analyzer default_thresholds)
   <= total_seconds (300000000 - 0))%Q.
Proof.
  apply (X3_alerts_spaced_by_cooldown (new_analyzer default_thresholds)
           [(0%Z, mkReading (Some (PyNum 45)) None None None);
            (300000000%Z, mkReading (Some (PyNum 45)) None None None)]
           [] [] [] 0 300000000
           (mkAlert heart_rate Warning (Bradycardia 45) (Some 45%Q)
                    (Some 60%Q) 0)
           (mkAlert heart_rate Warning (Bradycardia 45) (Some 45%Q)
                    (Some 60%Q) 300000000)).
  - vm_compute. discriminate.
  - vm_compute. reflexivity.
  - reflexivity.
  - reflexivity.
Defined.

(** ** Missing vitals *)

Lemma analyze_sub_raw (s : analyzer) (now : Z) (readings : reading) (a : alert) :
  a ∈ (analyze s now readings).2 ->
  exists raw, raw_alerts (ingest s readings) now readings = Ok raw /\ a ∈ raw.
Proof.
  destruct (raw_alerts (ingest s readings) now readings) as [raw|] eqn:Hraw.
  - destruct (analyze_Ok s now readings raw Hraw) as (-> & _).
    intros Ha. apply list_elem_of_filter in Ha as [_ Ha]. eauto.
  - rewrite (analyze_Raise _ _ _ Hraw). intros Ha. by apply elem_of_nil in Ha.
Qed.

Lemma shape_elem ty out a : shape ty out -> a ∈ out -> a_type a = ty.
Proof.
  intros [-> | (b & -> & Hb)] Ha; [by apply elem_of_nil in Ha|].
  apply list_elem_of_singleton in Ha. by subst.
Qed.

(** The alerts of a call, by the detector they come from. *)
Lemma raw_alerts_parts s now readings raw :
  raw_alerts s now readings = Ok raw ->
  exists a1 a2 a3 a4,
    _analyze_heart_rate (an_thresholds s) now readings = Ok a1 /\
    _analyze_spo2 (an_thresholds s) now readings = Ok a2 /\
    _analyze_temperature (an_thresholds s) now readings = Ok a3 /\
    _analyze_trends now (heart_rate_history s) (spo2_history s)
      (temp_history s) = Ok a4 /\
    raw = a1 ++ a2 ++ a3 ++ a4.
Proof.
  unfold raw_alerts. intros H.
  bind_inv H. bind_inv H. bind_inv H. bind_inv H. injection H as <-.
  eauto 10.
Qed.

Lemma trends_types now h1 h2 h3 out a :
  _analyze_trends now h1 h2 h3 = Ok out -> a ∈ out ->
  a_type a = heart_rate_trend \/ a_type a = spo2_trend \/
  a_type a = temperature_trend.
Proof.
  unfold _analyze_trends. intros H Ha.
  bind_inv H. bind_inv H. bind_inv H. injection H as <-.
  rewrite !elem_of_app in Ha.
  destruct Ha as [Ha | [Ha | Ha]];
    eauto using shape_elem, heart_rate_trend_shape, spo2_trend_shape,
      temperature_trend_shape.
Qed.

(** X4. A vital that the reading does not hold is skipped: its window is
    left as it was and the call returns no threshold alert of its type,
    whatever the other vitals and the state are. *)
Theorem X4_missing_vital_is_skipped (s : analyzer) (now : Z)
    (readings : reading) :
  (r_heart_rate readings = None ->
     heart_rate_history (analyze s now readings).1 = heart_rate_history s /\
     forall a, a ∈ (analyze s now readings).2 -> a_type a <> heart_rate) /\
  (r_spo2 readings = None ->
     spo2_history (analyze s now readings).1 = spo2_history s /\
     forall a, a ∈ (analyze s now readings).2 -> a_type a <> spo2) /\
  (r_temperature readings = None ->
     temp_history (analyze s now readings).1 = temp_history s /\
     forall a, a ∈ (analyze s now readings).2 -> a_type a <> temperature).
Proof.
  destruct (analyze_histories s now readings) as (H1 & H2 & H3).
  repeat split.
  - rewrite H1, H. reflexivity.
  - intros a Ha. apply analyze_sub_raw in Ha as (raw & Hraw & Ha).
    apply raw_alerts_parts in Hraw
      as (a1 & a2 & a3 & a4 & E1 & E2 & E3 & E4 & ->).
    unfold _analyze_heart_rate in E1. rewrite H in E1. injection E1 as <-.
    rewrite !elem_of_app in Ha. destruct Ha as [Ha | [Ha | [Ha | Ha]]].
    + by apply elem_of_nil in Ha.
    + rewrite (shape_elem _ _ _ (spo2_shape _ _ _ _ E2) Ha). discriminate.
    + rewrite (shape_elem _ _ _ (temperature_shape _ _ _ _ E3) Ha).
      discriminate.
    + destruct (trends_types _ _ _ _ _ _ E4 Ha) as [-> | [-> | ->]];
        discriminate.
  - rewrite H2, H. reflexivity.
  - intros a Ha. apply analyze_sub_raw in Ha as (raw & Hraw & Ha).
    apply raw_alerts_parts in Hraw
      as (a1 & a2 & a3 & a4 & E1 & E2 & E3 & E4 & ->).
    unfold _analyze_spo2 in E2. rewrite H in E2. injection E2 as <-.
    rewrite !elem_of_app in Ha. destruct Ha as [Ha | [Ha | [Ha | Ha]]].
    + rewrite (shape_elem _ _ _ (heart_rate_shape _ _ _ _ E1) Ha).
      discriminate.
    + by apply elem_of_nil in Ha.
    + rewrite (shape_elem _ _ _ (temperature_shape _ _ _ _ E3) Ha).
      discriminate.
    + destruct (trends_types _ _ _ _ _ _ E4 Ha) as [-> | [-> | ->]];
        discriminate.
  - rewrite H3, H. reflexivity.
  - intros a Ha. apply analyze_sub_raw in Ha as (raw & Hraw & Ha).
    apply raw_alerts_parts in Hraw
      as (a1 & a2 & a3 & a4 & E1 & E2 & E3 & E4 & ->).
    unfold _analyze_temperature in E3. rewrite H in E3. injection E3 as <-.
    rewrite !elem_of_app in Ha. destruct Ha as [Ha | [Ha | [Ha | Ha]]].
    + rewrite (shape_elem _ _ _ (heart_rate_shape _ _ _ _ E1) Ha).
      discriminate.
    + rewrite (shape_elem _ _ _ (spo2_shape _ _ _ _ E2) Ha). discriminate.
    + by apply elem_of_nil in Ha.
    + destruct (trends_types _ _ _ _ _ _ E4 Ha) as [-> | [-> | ->]];
        discriminate.
Qed.

(** A reading with a heart rate only: the spo2 window stays empty. *)
Lemma X4_witness :
  spo2_history
    (analyze (new_analyzer default_thresholds) 0
       (mkReading (Some (PyNum 45)) None None None)).1 = [].
Proof.
  destruct (X4_missing_vital_is_skipped (new_analyzer default_thresholds) 0
              (mkReading (Some (PyNum 45)) None None None))
    as (_ & H & _).
  destruct (H eq_refl) as [E _]. rewrite E. reflexivity.
Defined.

(** ** A sample that is not a number *)








(** ** Statistics *)









(** ** Reset *)

Lemma filter_all {A : Type} (P : A -> Prop) `{!forall x, Decision (P x)}
    (l : list A) :
  (forall x, x ∈ l -> P x) -> filter P l = l.
Proof.
  induction l as [|x l IH]; intros Hall; [reflexivity|].
  rewrite filter_cons_True by (apply Hall; by left).
  f_equal. apply IH. intros y Hy. apply Hall. by right.
Qed.

Lemma update_history_nil_short (v : option pyval) :
  (length (update_history [] v) <= 9)%nat.
Proof. destruct v; cbn; lia. Qed.

(** X7. After [reset_history] the next [analyze] call starts from nothing:
    it returns exactly the threshold alerts of the reading, in the order
    heart rate, spo2, temperature, none of them suppressed by the cooldown
    and with no trend alert; each window then holds at most the sample of
    that reading; and [get_statistics] right after the reset is the empty
    dict. *)
Theorem X7_reset_then_analyze (s : analyzer) (now : Z) (readings : reading)
    (a1 a2 a3 : list alert) :
  _analyze_heart_rate (an_thresholds s) now readings = Ok a1 ->
  _analyze_spo2 (an_thresholds s) now readings = Ok a2 ->
  _analyze_temperature (an_thresholds s) now readings = Ok a3 ->
  (analyze (reset_history s) now readings).2 = a1 ++ a2 ++ a3 /\
  heart_rate_history (analyze (reset_history s) now readings).1
  = update_history [] (r_heart_rate readings) /\
  spo2_history (analyze (reset_history s) now readings).1
  = update_history [] (r_spo2 readings) /\
  temp_history (analyze (reset_history s) now readings).1
  = update_history [] (r_temperature readings) /\
  get_statistics (reset_history s) = Ok (mkStatistics None None None).
Proof.
  intros E1 E2 E3.
  destruct (analyze_histories (reset_history s) now readings)
    as (H1 & H2 & H3).
  split; [|by repeat split].
  assert (Hraw : raw_alerts (ingest (reset_history s) readings) now readings
                 = Ok (a1 ++ a2 ++ a3 ++ [])).
  { unfold raw_alerts, _analyze_trends.
    cbn [ingest reset_history an_thresholds heart_rate_history spo2_history
         temp_history].
    rewrite E1. cbn [bind]. rewrite E2. cbn [bind]. rewrite E3. cbn [bind].
    destruct (short_window_no_trend now _
                (update_history_nil_short (r_heart_rate readings)))
      as (-> & _ & _).
    destruct (short_window_no_trend now _
                (update_history_nil_short (r_spo2 readings)))
      as (_ & -> & _).
    destruct (short_window_no_trend now _
                (update_history_nil_short (r_temperature readings)))
      as (_ & _ & ->).
    reflexivity. }
  destruct (analyze_Ok _ _ _ _ Hraw) as (-> & _).
  rewrite app_nil_r. apply filter_all. intros a _. reflexivity.
Qed.

(** An analyzer with a full heart-rate window and a running cooldown is
    reset: the low heart rate is reported at once. *)
Lemma X7_witness :
  a_message <$>
    (analyze
       (reset_history
          (mkAnalyzer default_thresholds (replicate 60 (PyNum 45)) [] []
             (<["heart_rate_warning"%string := 0%Z]> ∅) 300))
       1000000 (mkReading (Some (PyNum 45)) None None None)).2
  = [Bradycardia 45].
Proof.
  destruct (X7_reset_then_analyze
              (mkAnalyzer default_thresholds (replicate 60 (PyNum 45)) [] []
                 (<["heart_rate_warning"%string := 0%Z]> ∅) 300)
              1000000 (mkReading (Some (PyNum 45)) None None None)
              [mkAlert heart_rate Warning (Bradycardia 45) (Some 45%Q)
                       (Some 60%Q) 1000000] [] []
              eq_refl eq_refl eq_refl) as (H & _).
  rewrite H. reflexivity.
Defined.

(** ** Reading the alert history *)

Lemma record_alert_last (m : alert_manager) (a : alert) :
  (1 <= max_history m)%nat ->
  last (alert_history (record_alert m a)) = Some a.
Proof.
  intros Hmax. unfold record_alert. cbn [alert_history].
  rewrite length_app. cbn [length].
  destruct (max_history m <? length (alert_history m) + 1)%nat eqn:C;
    [|apply last_snoc].
  apply Nat.ltb_lt in C.
  destruct (alert_history m) as [|x h]; [cbn in C; lia|].
  cbn [app drop]. rewrite drop_0. apply last_snoc.
Qed.

Lemma last_drop {A : Type} (n : nat) (l : list A) :
  (n < length l)%nat -> last (drop n l) = last l.
Proof.
  revert n. induction l as [|x l IH]; intros n Hn; [cbn in Hn; lia|].
  destruct n as [|n]; [reflexivity|].
  cbn [drop]. cbn [length] in Hn. rewrite IH by lia.
  destruct l as [|y l]; [cbn in Hn; lia | reflexivity].
Qed.

(** X8. [get_alert_history(count)] is [alert_history[-count:]]: for a
    positive count it is the last [count] alerts (all of them when the
    history is shorter), oldest first; for a count of 0 it is not empty but
    the whole history; for a negative count it is the history without its
    first [-count] alerts.  With a positive count and a capacity of at
    least one, the alert just passed to [send_alert] is the last one
    returned. *)
Theorem X8_get_alert_history
    (transport : channel -> alert -> transport_outcome)
    (m : alert_manager) (count : Z) (a : alert) :
  ((0 < count)%Z ->
     get_alert_history m count
     = drop (length (alert_history m) - Z.to_nat count) (alert_history m) /\
     (length (get_alert_history m count) <= Z.to_nat count)%nat /\
     ((1 <= max_history m)%nat ->
      last (get_alert_history (send_alert transport m a).1.1 count)
      = Some a)) /\
  (count = 0%Z -> get_alert_history m count = alert_history m) /\
  ((count < 0)%Z ->
     get_alert_history m count = drop (Z.to_nat (- count)) (alert_history m)).
Proof.
  unfold get_alert_history, slice_from. repeat split.
  - assert ((- count <? 0)%Z = true) as -> by (apply Z.ltb_lt; lia).
    f_equal. lia.
  - assert ((- count <? 0)%Z = true) as -> by (apply Z.ltb_lt; lia).
    rewrite length_drop. lia.
  - intros Hmax. rewrite send_alert_manager.
    assert ((- count <? 0)%Z = true) as -> by (apply Z.ltb_lt; lia).
    pose proof (record_alert_last m a Hmax) as Hl.
    destruct (alert_history (record_alert m a)) as [|x h] eqn:Eh;
      [discriminate|].
    rewrite last_drop; [exact Hl|]. cbn [length]. lia.
  - intros ->. reflexivity.
  - intros Hc. assert ((- count <? 0)%Z = false) as -> by (apply Z.ltb_ge; lia).
    reflexivity.
Qed.

(** After three dispatches, a count of 2 gives the last two alerts. *)
Lemma X8_witness :
  get_alert_history
    (send_alerts sms_down (new_manager false false false)
       [error_alert 1; error_alert 2; error_alert 3]) 2
  = [error_alert 2; error_alert 3].
Proof.
  destruct (X8_get_alert_history sms_down
              (send_alerts sms_down (new_manager false false false)
                 [error_alert 1; error_alert 2; error_alert 3])
              2 (error_alert 0)) as (H & _).
  destruct H as (E & _); [lia|]. rewrite E. reflexivity.
Defined.

(** ** The monitor as [main.py] builds it *)

Section WiringFacts.

Variable transport : channel -> alert -> transport_outcome.

Lemma send_alerts_flags (alerts : list alert) : forall m,
  email_enabled (send_alerts transport m alerts) = email_enabled m /\
  sms_enabled (send_alerts transport m alerts) = sms_enabled m /\
  has_indicators (send_alerts transport m alerts) = has_indicators m.
Proof.
  induction alerts as [|a alerts IH]; intros m; [by cbn|].
  rewrite send_alerts_cons. destruct (IH (record_alert m a)) as (-> & -> & ->).
  by cbn.
Qed.

Lemma tick_flags (m : monitor) (now : Z) (acq : acquisition) :
  has_indicators (mon_manager (tick transport m now acq).1)
  = has_indicators (mon_manager m).
Proof.
  unfold tick. destruct acq as [readings| |].
  - destruct (analyze (mon_analyzer m) now readings) as [an alerts].
    cbn. apply send_alerts_flags.
  - destruct (max_consecutive_errors <=? S (consecutive_errors m))%nat;
      [|reflexivity].
    cbn [fst mon_manager]. by rewrite send_alert_manager.
  - reflexivity.
Qed.

Lemma run_flags (ticks : list (Z * acquisition)) : forall m,
  has_indicators (mon_manager (run transport m ticks).1)
  = has_indicators (mon_manager m).
Proof.
  induction ticks as [|[now acq] ticks IH]; intros m; [reflexivity|].
  cbn [run]. pose proof (tick_flags m now acq) as Ht.
  destruct (tick transport m now acq) as [m1 sent]. cbn [fst] in Ht.
  specialize (IH m1). destruct (run transport m1 ticks) as [m2 sents].
  cbn [fst] in *. congruence.
Qed.

(** X9. [main.py] builds its [AlertManager] without indicators, and no tick
    of the loop changes that.  So, whatever the transports do, at every
    moment of a monitoring run the local channel reports [False] for every
    alert, an info alert (the rising-temperature trend, the test alert) is
    delivered through no channel and logged as not sent, and with email and
    SMS switched off no alert at all is delivered. *)
Theorem X9_monitor_has_no_local_channel (th : thresholds)
    (email sms : bool) (ticks : list (Z * acquisition)) (a : alert) :
  let m := mon_manager (run transport (new_monitor th email sms) ticks).1 in
  let res := (send_alert transport m a).1.2 in
  has_indicators m = false /\
  res_local res = false /\
  (a_severity a = Info ->
     res = mkResults false false false /\ log_results res = LogNotSent) /\
  (email_enabled m = false -> sms_enabled m = false ->
     res = mkResults false false false /\ log_results res = LogNotSent).
Proof.
  intros m res.
  assert (Hm : has_indicators m = false) by (subst m; by rewrite run_flags).
  subst res. unfold send_alert, attempt, send.
  split; [exact Hm|].
  destruct (a_severity a); cbn; rewrite ?Hm; repeat split; try discriminate.
  all: repeat match goal with
       | H : _ = false |- _ => rewrite H
       end; reflexivity.
Qed.

End WiringFacts.

(** A rising-temperature alert in a monitor with email and SMS on, all
    transports delivering: nothing is sent. *)
Lemma X9_witness :
  (send_alert (fun _ _ => Delivered)
     (mon_manager
        (run (fun _ _ => Delivered)
           (new_monitor default_thresholds true true) [(0%Z, AcqNone)]).1)
     (mkAlert temperature_trend Info (RisingTemperature 36 37) None None 0)
  ).1.2
  = mkResults false false false.
Proof.
  destruct (X9_monitor_has_no_local_channel (fun _ _ => Delivered)
              default_thresholds true true [(0%Z, AcqNone)]
              (mkAlert temperature_trend Info (RisingTemperature 36 37)
                       None None 0))
    as (_ & _ & H & _).
  destruct (H eq_refl) as [E _]. exact E.
Defined.

(** ** Escalation of failed reads *)

Section EscalationFacts.

Variable transport : channel -> alert -> transport_outcome.

Lemma run_cons (m : monitor) (now : Z) (acq : acquisition)
    (ticks : list (Z * acquisition)) :
  run transport m ((now, acq) :: ticks)
  = ((run transport (tick transport m now acq).1 ticks).1,
     (tick transport m now acq).2
     :: (run transport (tick transport m now acq).1 ticks).2).
Proof.
  cbn [run]. destruct (tick transport m now acq) as [m1 sent].
  cbn [fst snd]. by destruct (run transport m1 ticks).
Qed.



End EscalationFacts.


(** ** The history over a monitoring run *)

Section RunHistoryFacts.

Variable transport : channel -> alert -> transport_outcome.

Lemma send_alerts_app (m : alert_manager) (l1 l2 : list alert) :
  send_alerts transport m (l1 ++ l2)
  = send_alerts transport (send_alerts transport m l1) l2.
Proof. unfold send_alerts. apply foldl_app. Qed.

Lemma tick_manager (m : monitor) (now : Z) (acq : acquisition) :
  mon_manager (tick transport m now acq).1
  = send_alerts transport (mon_manager m) (tick transport m now acq).2.
Proof.
  unfold tick. destruct acq as [readings| |].
  - by destruct (analyze (mon_analyzer m) now readings) as [an alerts].
  - destruct (max_consecutive_errors <=? S (consecutive_errors m))%nat;
      reflexivity.
  - reflexivity.
Qed.

Lemma run_manager (ticks : list (Z * acquisition)) : forall m,
  mon_manager (run transport m ticks).1
  = send_alerts transport (mon_manager m)
      (concat (run transport m ticks).2).
Proof.
  induction ticks as [|[now acq] ticks IH]; intros m; [reflexivity|].
  rewrite run_cons. cbn [fst snd concat].
  rewrite send_alerts_app, IH, tick_manager. reflexivity.
Qed.

(** X11. Over a whole monitoring run the manager's history is fed by the
    loop and by nothing else: starting from a history within capacity (the
    empty one of a new monitor, capacity 1000), after any sequence of ticks
    it holds the last [max_history] alerts of the old history followed by
    every alert the loop dispatched (analyzer alerts and system alerts
    alike), in dispatch order. *)
Theorem X11_history_of_a_run (m : monitor) (ticks : list (Z * acquisition)) :
  (length (alert_history (mon_manager m)) <= max_history (mon_manager m))%nat ->
  let dispatched := concat (run transport m ticks).2 in
  alert_history (mon_manager (run transport m ticks).1)
  = drop (length (alert_history (mon_manager m) ++ dispatched)
          - max_history (mon_manager m))
         (alert_history (mon_manager m) ++ dispatched) /\
  (length (alert_history (mon_manager (run transport m ticks).1))
   <= max_history (mon_manager m))%nat.
Proof.
  intros Hinv dispatched. subst dispatched. rewrite run_manager.
  destruct (send_alerts_history transport
              (concat (run transport m ticks).2) (mon_manager m) Hinv)
    as [Hh _].
  split; [exact Hh|]. rewrite Hh. apply last_n_length.
Qed.

End RunHistoryFacts.

(** A run with a low heart rate, then five failed reads: the history holds
    the bradycardia warning and then the system alert. *)
Lemma X11_witness :
  a_message <$>
    alert_history
      (mon_manager
         (run sms_down (new_monitor default_thresholds false false)
            ((0%Z, AcqReading (mkReading (Some (PyNum 45)) None None None))
             :: replicate 5 (1%Z, AcqNone))).1)
  = [Bradycardia 45; SensorCommunicationFailure].
Proof.
  destruct (X11_history_of_a_run sms_down
              (new_monitor default_thresholds false false)
              ((0%Z, AcqReading (mkReading (Some (PyNum 45)) None None None))
               :: replicate 5 (1%Z, AcqNone))) as (H & _).
  - cbn. lia.
  - rewrite H. vm_compute. reflexivity.
Defined.

(** ** Heart rate from the optical samples *)

Lemma py_div_Ok (a b : Q) : ~ (b == 0)%Q -> py_div a b = Ok (a / b)%Q.
Proof.
  intros Hb. unfold py_div. destruct (Qeq_bool b 0) eqn:E; [|reflexivity].
  apply Qeq_bool_iff in E. contradiction.
Qed.

Lemma inject_Z_nat_pos (n : nat) :
  (0 < n)%nat -> (0 < inject_Z (Z.of_nat n))%Q.
Proof. intros H. change 0%Q with (inject_Z 0). rewrite <- Zlt_Qlt. lia. Qed.

(** The indices kept by a filter over [seq]: the first one is in range and
    the others come from the rest of the range. *)
Lemma filter_seq_head (P : nat -> Prop) `{!forall i, Decision (P i)}
    (n : nat) : forall (a x : nat) (l : list nat),
  filter P (seq a n) = x :: l ->
  (a <= x)%nat /\
  exists n', l = filter P (seq (S x) n') /\ (S x + n' = a + n)%nat.
Proof.
  induction n as [|n IH]; intros a x l Hf; [discriminate|].
  cbn [seq] in Hf. destruct (decide (P a)) as [Hp|Hp].
  - rewrite filter_cons_True in Hf by exact Hp. injection Hf as <- <-.
    split; [lia|]. exists n. split; [reflexivity | lia].
  - rewrite filter_cons_False in Hf by exact Hp.
    destruct (IH _ _ _ Hf) as (Hle & n' & -> & Hn).
    split; [lia|]. exists n'. split; [reflexivity | lia].
Qed.

(** The intervals between the kept indices add up to the distance from
    the first to the last, and there are no more of them than that. *)
Lemma intervals_of_filter_seq (P : nat -> Prop) `{!forall i, Decision (P i)}
    (l : list nat) : forall (a n x : nat),
  filter P (seq a n) = x :: l ->
  length (peak_intervals (x :: l)) = length l /\
  (Z.of_nat (length l) <= Zsum (peak_intervals (x :: l)))%Z /\
  (a <= x)%nat /\
  (Z.of_nat x + Zsum (peak_intervals (x :: l)) < Z.of_nat (a + n))%Z.
Proof.
  induction l as [|z l IH]; intros a n x Hf.
  - cbn. destruct (filter_seq_head P n a x [] Hf) as (Hle & n' & _ & Hn).
    repeat split; lia.
  - destruct (filter_seq_head P n a x (z :: l) Hf) as (Hle & n' & Hl & Hn).
    symmetry in Hl.
    destruct (filter_seq_head P n' (S x) z l Hl) as (Hz & _).
    destruct (IH (S x) n' z Hl) as (H1 & H2 & _ & H3).
    change (peak_intervals (x :: z :: l))
      with ((Z.of_nat z - Z.of_nat x)%Z :: peak_intervals (z :: l)).
    cbn [length Zsum foldr]. fold (Zsum (peak_intervals (z :: l))).
    repeat split; lia.
Qed.

Lemma _calculate_heart_rate_spec (samples : list (Q * Q)) :
  exists o, _calculate_heart_rate samples = Ok o /\
    forall hr, o = Some hr ->
      (30 <= hr <= 250)%Q /\
      (exists threshold,
         2 <= length (find_peaks (snd <$> samples) threshold))%nat /\
      ((length samples <= 100)%nat -> (6000 / 97 <= hr)%Q).
Proof.
  unfold _calculate_heart_rate. destruct samples as [|s0 samples'] eqn:Es.
  { exists None. split; [reflexivity | discriminate]. }
  rewrite <- Es. set (ir := snd <$> samples).
  assert (Hlen : length ir = length samples) by apply length_fmap.
  assert (Hpos : (0 < length ir)%nat) by (rewrite Hlen, Es; cbn; lia).
  rewrite py_div_Ok
    by (pose proof (inject_Z_nat_pos _ Hpos); lra).
  cbn [bind]. set (threshold := (sum_nums ir / _)%Q).
  destruct (length (find_peaks ir threshold) <? 2)%nat eqn:Hk.
  { exists None. split; [reflexivity | discriminate]. }
  apply Nat.ltb_ge in Hk.
  destruct (find_peaks ir threshold) as [|x l] eqn:Ep; [cbn in Hk; lia|].
  unfold find_peaks in Ep.
  destruct (intervals_of_filter_seq _ l 1 (length ir - 2) x Ep)
    as (Hn & Hlo & Hx & Hhi).
  cbn [length] in Hk.
  set (S := Zsum (peak_intervals (x :: l))) in *.
  set (L := length (peak_intervals (x :: l))) in *.
  assert (HL : (1 <= inject_Z (Z.of_nat L))%Q).
  { change 1%Q with (inject_Z 1). rewrite <- Zle_Qle. lia. }
  assert (HS : (inject_Z (Z.of_nat L) <= inject_Z S)%Q).
  { rewrite <- Zle_Qle. lia. }
  rewrite py_div_Ok by lra. cbn [bind].
  assert (Havg : (0 < inject_Z S / inject_Z (Z.of_nat L))%Q).
  { apply Qlt_shift_div_l; lra. }
  rewrite py_div_Ok by lra. cbn [bind].
  set (hr := (60 / (inject_Z S / inject_Z (Z.of_nat L) * 0.01))%Q).
  unfold Qbetween.
  destruct (Qle_bool 30 hr) eqn:B1; cbn [andb];
    [destruct (Qle_bool hr 250) eqn:B2|];
    eexists; (split; [reflexivity|]); try discriminate.
  intros ? [= <-]. apply Qle_bool_iff in B1, B2.
  split; [split; assumption|]. split.
  { exists threshold. unfold find_peaks. rewrite Ep. cbn [length]. lia. }
  intros H100. rewrite <- Hlen in H100.
  assert (HS97 : (inject_Z S <= 97)%Q).
  { change 97%Q with (inject_Z 97). rewrite <- Zle_Qle. lia. }
  assert (Hhr : (hr == 6000 * inject_Z (Z.of_nat L) / inject_Z S)%Q).
  { unfold hr. field. split; lra. }
  rewrite Hhr. apply Qle_shift_div_l; [lra|].
  change (6000 / 97)%Q with (6000 # 97)%Q. lra.
Qed.

(** X12. [_calculate_heart_rate] never raises: none of its three divisions
    is by zero.  A heart rate it returns lies between 30 and 250 and comes
    from at least two peaks; and since the peaks lie inside the sample
    window, a window of at most 100 samples (all that [read] collects)
    cannot yield a heart rate below 6000/97, about 61.9 beats per
    minute. *)
Theorem X12_heart_rate_from_samples (samples : list (Q * Q)) :
  exists o, _calculate_heart_rate samples = Ok o /\
    forall hr, o = Some hr ->
      (30 <= hr <= 250)%Q /\
      (exists threshold,
         2 <= length (find_peaks (snd <$> samples) threshold))%nat /\
      ((length samples <= 100)%nat -> (6000 / 97 <= hr)%Q).
Proof. exact (_calculate_heart_rate_spec samples). Qed.

(** Two peaks, 50 samples apart, in a window of 53 samples: 120 beats per
    minute. *)
Lemma X12_witness :
  exists hr,
    _calculate_heart_rate
      ((fun ir => (0%Q, ir)) <$>
         ([0; 10] ++ replicate 49 0 ++ [10; 0])%Q) = Ok (Some hr) /\
    (6000 / 97 <= hr)%Q.
Proof.
  destruct (X12_heart_rate_from_samples
              ((fun ir => (0%Q, ir)) <$>
                 ([0; 10] ++ replicate 49 0 ++ [10; 0])%Q))
    as (o & E & H).
  destruct o as [hr|]; [|vm_compute in E; discriminate E].
  exists hr. split; [exact E|].
  apply (H hr eq_refl). vm_compute. lia.
Defined.

(** ** Oxygen saturation from the optical samples *)

Lemma Qeq_bool_false (a b : Q) : Qeq_bool a b = false -> ~ (a == b)%Q.
Proof. intros E H. apply Qeq_bool_iff in H. congruence. Qed.

Lemma Qdiv_nonzero (a b : Q) :
  ~ (a == 0)%Q -> ~ (b == 0)%Q -> ~ (a / b == 0)%Q.
Proof.
  intros Ha Hb H. apply Ha.
  rewrite <- (Qmult_div_r a b Hb), H. ring.
Qed.

Lemma _calculate_spo2_spec (samples : list (Q * Q)) :
  exists o, _calculate_spo2 samples = Ok o /\
    forall v, o = Some v -> (70 <= v <= 100)%Q.
Proof.
  unfold _calculate_spo2. destruct samples as [|[red0 ir0] rest].
  { exists None. split; [reflexivity | discriminate]. }
  assert (Hr : ~ (inject_Z (Z.of_nat (length (fst <$> (red0, ir0) :: rest)))
                  == 0)%Q).
  { assert (Hl : (0 < length (fst <$> (red0, ir0) :: rest))%nat)
      by (rewrite length_fmap; cbn [length]; lia).
    pose proof (inject_Z_nat_pos _ Hl). lra. }
  assert (Hi : ~ (inject_Z (Z.of_nat (length (snd <$> (red0, ir0) :: rest)))
                  == 0)%Q).
  { assert (Hl : (0 < length (snd <$> (red0, ir0) :: rest))%nat)
      by (rewrite length_fmap; cbn [length]; lia).
    pose proof (inject_Z_nat_pos _ Hl). lra. }
  rewrite (py_div_Ok _ _ Hr). cbn [bind].
  rewrite (py_div_Ok _ _ Hi). cbn [bind].
  set (red_dc := (sum_nums (fst <$> (red0, ir0) :: rest) / _)%Q).
  set (ir_dc := (sum_nums (snd <$> (red0, ir0) :: rest) / _)%Q).
  set (red_ac := (Qmax_from red0 _ - Qmin_from red0 _)%Q).
  set (ir_ac := (Qmax_from ir0 _ - Qmin_from ir0 _)%Q).
  destruct (Qeq_bool red_dc 0) eqn:E1; cbn [orb];
    [exists None; split; [reflexivity | discriminate]|].
  destruct (Qeq_bool ir_dc 0) eqn:E2; cbn [orb];
    [exists None; split; [reflexivity | discriminate]|].
  destruct (Qeq_bool ir_ac 0) eqn:E3;
    [exists None; split; [reflexivity | discriminate]|].
  apply Qeq_bool_false in E1, E2, E3.
  rewrite (py_div_Ok _ _ E1). cbn [bind].
  rewrite (py_div_Ok _ _ E2). cbn [bind].
  rewrite (py_div_Ok _ _ (Qdiv_nonzero _ _ E3 E2)). cbn [bind].
  unfold Qbetween.
  destruct (Qle_bool 70 _) eqn:B1; cbn [andb];
    [destruct (Qle_bool _ 100) eqn:B2|];
    eexists; (split; [reflexivity|]); try discriminate.
  intros ? [= <-]. apply Qle_bool_iff in B1, B2. split; assumption.
Qed.

(** X13. [_calculate_spo2] never raises: the test before the ratio rules
    out every zero divisor, so flat or zero signals give [None] instead of
    a division by zero.  A saturation it returns lies between 70 and
    100. *)
Theorem X13_spo2_from_samples (samples : list (Q * Q)) :
  exists o, _calculate_spo2 samples = Ok o /\
    forall v, o = Some v -> (70 <= v <= 100)%Q.
Proof. exact (_calculate_spo2_spec samples). Qed.

(** Red and infrared both swinging between 90 and 110: a ratio of 1, a
    saturation of 85. *)
Lemma X13_witness :
  exists v,
    _calculate_spo2 [(90, 90); (110, 110)]%Q = Ok (Some v) /\
    (70 <= v <= 100)%Q.
Proof.
  destruct (X13_spo2_from_samples [(90, 90); (110, 110)]%Q) as (o & E & H).
  destruct o as [v|]; [|vm_compute in E; discriminate E].
  exists v. split; [exact E | exact (H v eq_refl)].
Defined.

(** ** What [read_all] can return *)

Lemma py_int_bounds (x : Q) (a b : Z) :
  (0 <= a)%Z -> (inject_Z a <= x)%Q -> (x <= inject_Z b)%Q ->
  (a <= py_int x <= b)%Z.
Proof.
  unfold py_int, Qle, inject_Z. cbn [Qnum Qden]. intros Ha H1 H2.
  assert (Hd : (0 < QDen x)%Z) by reflexivity.
  assert (Hn : (0 <= Qnum x)%Z) by nia.
  rewrite Z.quot_div_nonneg by lia. split.
  - apply Z.div_le_lower_bound; lia.
  - apply Z.div_le_upper_bound; lia.
Qed.

Lemma round_half_even_bounds (x : Q) (a b : Z) :
  (inject_Z a <= x)%Q -> (x <= inject_Z b)%Q ->
  (a <= round_half_even x <= b)%Z.
Proof.
  unfold round_half_even, Qle, inject_Z. cbn [Qnum Qden]. intros H1 H2.
  assert (Hd : (0 < QDen x)%Z) by reflexivity.
  pose proof (Z.div_mod (Qnum x) (QDen x) ltac:(lia)) as Hdm.
  pose proof (Z.mod_pos_bound (Qnum x) (QDen x) Hd) as Hm.
  set (f := (Qnum x / QDen x)%Z) in *.
  set (r := (Qnum x mod QDen x)%Z) in *.
  assert (Hf : (a <= f)%Z) by nia.
  assert (Hf' : (f <= b)%Z) by nia.
  assert (Hr : (0 < r -> f + 1 <= b)%Z) by nia.
  destruct (2 * r <? QDen x)%Z eqn:C1; [lia|].
  apply Z.ltb_ge in C1.
  destruct (QDen x <? 2 * r)%Z; [lia|].
  destruct (Z.even f); lia.
Qed.

Lemma round1_bounds (x : Q) (a b : Z) :
  (inject_Z a / 10 <= x)%Q -> (x <= inject_Z b / 10)%Q ->
  (inject_Z a / 10 <= round1 x <= inject_Z b / 10)%Q.
Proof.
  intros H1 H2. unfold round1, Qdiv in *.
  change (/ 10)%Q with (1 # 10)%Q in *.
  destruct (round_half_even_bounds (x * 10) a b) as [L U]; [lra | lra|].
  rewrite Zle_Qle in L, U. lra.
Qed.

Lemma omap_id_length {A : Type} (l : list (option A)) :
  (length (omap id l) <= length l)%nat.
Proof.
  induction l as [|[x|] l IH]; cbn; lia.
Qed.

Lemma Qbetween_true (a x b : Q) :
  Qbetween a x b = true -> (a <= x <= b)%Q.
Proof.
  unfold Qbetween. intros H. apply andb_true_iff in H as [H1 H2].
  by apply Qle_bool_iff in H1, H2.
Qed.

(** The pulse oximeter, read from the real sensor. *)
Lemma max30102_read_Some polls hr sp :
  max30102_read polls = Some (hr, sp) ->
  (61 <= hr <= 250)%Z /\ (70 <= sp <= 100)%Z.
Proof.
  unfold max30102_read. destruct polls as [ps|]; [|discriminate].
  set (samples := omap id (take 100 ps)).
  assert (Hlen : (length samples <= 100)%nat).
  { subst samples. etransitivity; [apply omap_id_length|].
    rewrite length_take. lia. }
  destruct (_calculate_heart_rate_spec samples) as (o1 & -> & H1).
  destruct (_calculate_spo2_spec samples) as (o2 & -> & H2).
  cbn [bind]. destruct samples as [|s0 samples']; [discriminate|].
  destruct o1 as [h|]; [|discriminate].
  destruct o2 as [v|]; [|discriminate].
  destruct (valid_in 30 250 (Some h) && valid_in 70 100 (Some v));
    [|discriminate].
  intros [= <- <-].
  destruct (H1 h eq_refl) as ([L1 U1] & _ & B). specialize (B Hlen).
  destruct (H2 v eq_refl) as [L2 U2].
  split; apply py_int_bounds; try lia; try assumption.
  eapply Qle_trans; [|exact B]. vm_compute. discriminate.
Qed.

Lemma ds18b20_read_Some offset sensor t :
  ds18b20_read offset sensor = Some t -> (30 <= t <= 42)%Q.
Proof.
  unfold ds18b20_read. destruct sensor as [raw|]; [|discriminate].
  destruct (Qbetween 30.0 (raw + offset) 42.0) eqn:B; [|discriminate].
  intros [= <-]. apply Qbetween_true in B. destruct B as [B1 B2].
  assert (E1 : (inject_Z 300 / 10 == 30)%Q) by reflexivity.
  assert (E2 : (inject_Z 420 / 10 == 42)%Q) by reflexivity.
  destruct (round1_bounds (raw + offset) 300 420) as [L U].
  - rewrite E1. lra.
  - rewrite E2. lra.
  - rewrite E1 in L. rewrite E2 in U. split; assumption.
Qed.

Lemma read_all_reading pulse temp led_ok readings :
  read_all pulse temp led_ok = AcqReading readings ->
  exists p t, pulse = Some p /\ temp = Some t /\ readings = combine p t.
Proof.
  unfold read_all. destruct pulse as [p|], temp as [t|];
    repeat match goal with
    | |- context [if ?b then _ else _] => destruct b
    end; try discriminate.
  intros [= <-]. eauto.
Qed.

(** X14. [read_all] never returns a partial reading: a reading it returns
    holds the heart rate, the spo2, the temperature and the unit C, and if
    either sensor returned nothing there is no reading at all, so a failed
    temperature read discards a valid pulse measurement.  With both sensors
    real, the heart rate is a whole number from 61 to 250, the spo2 a whole
    number from 70 to 100 and the temperature lies between 30 and 42: a
    heart rate under 61, an spo2 under 70 or a temperature outside 30-42
    never reaches the analyzer.  An exception leaves [read_all] only when
    [set_led] raises twice. *)
Theorem X14_read_all_readings (polls : result (list (option (Q * Q))))
    (offset : Q) (sensor : result Q)
    (pulse : option (Z * Z)) (temp : option Q) (led_ok : nat -> bool)
    (readings : reading) :
  (read_all pulse temp led_ok = AcqReading readings ->
     complete readings /\
     r_temperature_unit readings = Some "C"%string /\
     is_Some pulse /\ is_Some temp) /\
  (read_all (max30102_read polls) (ds18b20_read offset sensor) led_ok
   = AcqReading readings ->
     exists hr sp t,
       readings = mkReading (Some (PyNum (inject_Z hr)))
                    (Some (PyNum (inject_Z sp))) (Some (PyNum t))
                    (Some "C"%string) /\
       (61 <= hr <= 250)%Z /\ (70 <= sp <= 100)%Z /\ (30 <= t <= 42)%Q) /\
  (read_all pulse temp led_ok = AcqRaise ->
     led_ok 0%nat = false /\ led_ok 1%nat = false).
Proof.
  repeat split.
  all: try (apply read_all_reading in H as (p & t & -> & -> & ->);
            cbn; eauto; fail).
  - intros H. apply read_all_reading in H as ([hr sp] & t & Hp & Ht & ->).
    apply max30102_read_Some in Hp. apply ds18b20_read_Some in Ht.
    exists hr, sp, t. split; [reflexivity | tauto].
  - revert H. unfold read_all. destruct pulse, temp;
      destruct (led_ok 0%nat); try discriminate; reflexivity.
  - revert H. unfold read_all. destruct pulse, temp;
      destruct (led_ok 0%nat), (led_ok 1%nat); try discriminate; reflexivity.
Qed.

(** A steady pulse and 36.84 degrees: the reading is 120 beats per minute,
    85 percent, 36.8 degrees. *)
Lemma X14_witness :
  exists hr sp t,
    read_all (max30102_read (Ok steady_pulse)) (ds18b20_read 0 (Ok 36.84%Q))
      (fun _ => true)
    = AcqReading (mkReading (Some (PyNum (inject_Z hr)))
                    (Some (PyNum (inject_Z sp))) (Some (PyNum t))
                    (Some "C"%string)) /\
    hr = 120%Z /\ sp = 85%Z /\ (t == 36.8)%Q.
Proof.
  destruct (X14_read_all_readings (Ok steady_pulse) 0 (Ok 36.84%Q) None None
              (fun _ => true)
              (combine (120%Z, 85%Z) (inject_Z 368 / 10)%Q))
    as (_ & H & _).
  destruct H as (hr & sp & t & E & _); [vm_compute; reflexivity|].
  injection E as E1 E2 E3.
  exists hr, sp, t.
  assert (Hhr : hr = 120%Z) by (vm_compute in E1; congruence).
  assert (Hsp : sp = 85%Z) by (vm_compute in E2; congruence).
  subst hr sp. rewrite <- E3. split; [vm_compute; reflexivity|].
  repeat split.
Defined.

(** ** No bradycardia alert from the sensors *)

Lemma no_bradycardia (th : thresholds) (now : Z) (readings : reading)
    (hr : Z) :
  r_heart_rate readings = Some (PyNum (inject_Z hr)) ->
  (61 <= hr)%Z ->
  (hr_min th <= 61)%Q -> (hr_critical_min th <= 61)%Q ->
  exists out, _analyze_heart_rate th now readings = Ok out /\
    forall a v, a ∈ out ->
      a_message a <> Bradycardia v /\ a_message a <> CriticalBradycardia v.
Proof.
  intros Hr Hhr Hmin Hcmin.
  assert (Hq : (61 <= inject_Z hr)%Q).
  { change 61%Q with (inject_Z 61). by rewrite <- Zle_Qle. }
  destruct (heart_rate_cases th now readings _ Hr)
    as (out & E & _ & H2 & _ & H4 & H5).
  exists out. split; [exact E|]. intros a v Ha.
  destruct (Qlt_le_dec (hr_critical_max th) (inject_Z hr)) as [C|C].
  - destruct (H2 ltac:(lra) C) as (b & -> & _ & _ & Hm).
    apply list_elem_of_singleton in Ha. subst b. rewrite Hm.
    split; discriminate.
  - destruct (Qlt_le_dec (hr_max th) (inject_Z hr)) as [D|D].
    + destruct (H4 ltac:(lra) ltac:(lra) ltac:(lra) D)
        as (b & -> & _ & _ & Hm).
      apply list_elem_of_singleton in Ha. subst b. rewrite Hm.
      split; discriminate.
    + rewrite (H5 ltac:(lra) ltac:(lra) ltac:(lra) ltac:(lra)) in Ha.
      by apply elem_of_nil in Ha.
Qed.

(** X15. Whatever the pulse oximeter measures, a reading that comes from
    [read_all] never raises a bradycardia alert, warning or critical, as
    long as the configured [min] and [critical_min] of the heart rate are
    at most 61 (the defaults are 60 and 40): the real sensor cannot report
    a heart rate under 61, and the simulated one reports 70 to 80. *)
Theorem X15_no_bradycardia_alert_from_read_all (th : thresholds) (now : Z)
    (pulse : option (Z * Z)) (temp : option Q) (led_ok : nat -> bool)
    (readings : reading) :
  (exists polls, pulse = max30102_read polls) \/
  (exists d_hr d_spo2, (-5 <= d_hr <= 5)%Z /\
                       pulse = max30102_simulate d_hr d_spo2) ->
  read_all pulse temp led_ok = AcqReading readings ->
  (hr_min th <= 61)%Q -> (hr_critical_min th <= 61)%Q ->
  exists out, _analyze_heart_rate th now readings = Ok out /\
    forall a v, a ∈ out ->
      a_message a <> Bradycardia v /\ a_message a <> CriticalBradycardia v.
Proof.
  intros Hsrc Hread Hmin Hcmin.
  apply read_all_reading in Hread as ([hr sp] & t & Hp & _ & ->).
  apply (no_bradycardia th now _ hr); [reflexivity| |assumption..].
  destruct Hsrc as [(polls & ->) | (d1 & d2 & Hd & ->)].
  - apply max30102_read_Some in Hp. lia.
  - injection Hp as <- _. lia.
Qed.

(** The steady pulse of 120 under the default bounds: the alert is
    tachycardia. *)
Lemma X15_witness :
  exists out,
    _analyze_heart_rate default_thresholds 0
      (combine (120%Z, 85%Z) 36.8%Q) = Ok out /\
    forall a v, a ∈ out ->
      a_message a <> Bradycardia v /\ a_message a <> CriticalBradycardia v.
Proof.
  apply (X15_no_bradycardia_alert_from_read_all default_thresholds 0
           (max30102_read (Ok steady_pulse)) (Some 36.8%Q) (fun _ => true)).
  - left. eexists. reflexivity.
  - vm_compute. reflexivity.
  - vm_compute. discriminate.
  - vm_compute. discriminate.
Defined.

(** ** The simulated sensors *)

(** X16. With both sensors simulated, whatever the random draws are, the
    reading that [read_all] returns raises no threshold alert under the
    default bounds: the heart rate is 70 to 80, the spo2 95 to 99 and the
    temperature 36.5 to 37.1.  In simulation only the trend detector can
    raise an alert. *)
Theorem X16_simulated_readings_raise_no_threshold_alert
    (d_hr d_spo2 : Z) (u : Q) (led_ok : nat -> bool) (now : Z)
    (readings : reading) :
  (-5 <= d_hr <= 5)%Z -> (-2 <= d_spo2 <= 2)%Z -> (-0.3 <= u <= 0.3)%Q ->
  read_all (max30102_simulate d_hr d_spo2) (ds18b20_simulate u) led_ok
  = AcqReading readings ->
  _analyze_heart_rate default_thresholds now readings = Ok [] /\
  _analyze_spo2 default_thresholds now readings = Ok [] /\
  _analyze_temperature default_thresholds now readings = Ok [].
Proof.
  intros H1 H2 H3 Hread.
  apply read_all_reading in Hread as ([hr sp] & t & Hp & Ht & ->).
  injection Hp as <- <-. injection Ht as <-.
  assert (Q1 : (70 <= inject_Z (75 + d_hr) <= 80)%Q).
  { change 70%Q with (inject_Z 70). change 80%Q with (inject_Z 80).
    rewrite <- !Zle_Qle. lia. }
  assert (Q2 : (95 <= inject_Z (97 + d_spo2) <= 99)%Q).
  { change 95%Q with (inject_Z 95). change 99%Q with (inject_Z 99).
    rewrite <- !Zle_Qle. lia. }
  assert (Q3 : (36.5 <= round1 (36.8 + u) <= 37.1)%Q).
  { assert (E1 : (inject_Z 365 / 10 == 36.5)%Q) by reflexivity.
    assert (E2 : (inject_Z 371 / 10 == 37.1)%Q) by reflexivity.
    destruct (round1_bounds (36.8 + u) 365 371) as [L U].
    - rewrite E1. lra.
    - rewrite E2. lra.
    - rewrite E1 in L. rewrite E2 in U. split; assumption. }
  split; [|split].
  - destruct (heart_rate_cases default_thresholds now
                (combine ((75 + d_hr)%Z, (97 + d_spo2)%Z) (round1 (36.8 + u)))
                _ eq_refl) as (out & -> & _ & _ & _ & _ & H).
    f_equal. change (hr_critical_min default_thresholds) with 40%Q in H.
    change (hr_critical_max default_thresholds) with 150%Q in H.
    change (hr_min default_thresholds) with 60%Q in H.
    change (hr_max default_thresholds) with 100%Q in H.
    cbn [fst snd] in H. apply H; lra.
  - destruct (spo2_cases default_thresholds now
                (combine ((75 + d_hr)%Z, (97 + d_spo2)%Z) (round1 (36.8 + u)))
                _ eq_refl) as (out & -> & _ & _ & H).
    f_equal. change (spo2_critical_min default_thresholds) with 90%Q in H.
    change (spo2_min default_thresholds) with 95%Q in H.
    cbn [fst snd] in H. apply H; lra.
  - destruct (temperature_cases default_thresholds now
                (combine ((75 + d_hr)%Z, (97 + d_spo2)%Z) (round1 (36.8 + u)))
                _ eq_refl) as (out & -> & _ & _ & _ & _ & H).
    f_equal.
    change (celsius _ (round1 (36.8 + u))) with (round1 (36.8 + u)) in H.
    change (temp_critical_min default_thresholds) with 35.0%Q in H.
    change (temp_critical_max default_thresholds) with 39.0%Q in H.
    change (temp_min default_thresholds) with 36.1%Q in H.
    change (temp_max default_thresholds) with 37.8%Q in H.
    apply H; lra.
Qed.

(** The lowest draws: 70 beats per minute, 95 percent, 36.5 degrees. *)
Lemma X16_witness :
  _analyze_spo2 default_thresholds 0
    (combine (70%Z, 95%Z) (round1 (36.8 + -0.3))) = Ok [].
Proof.
  destruct (X16_simulated_readings_raise_no_threshold_alert
              (-5) (-2) (-0.3)%Q (fun _ => true) 0
              (combine (70%Z, 95%Z) (round1 (36.8 + -0.3)))) as (_ & H & _).
  - lia.
  - lia.
  - split; vm_compute; discriminate.
  - reflexivity.
  - exact H.
Defined.

(** ** The windows of the monitor *)

Lemma deque_append_length {A : Type} (d : list A) (x : A) :
  length (deque_append d x)
  = if (maxlen <=? length d)%nat then length d else S (length d).
Proof.
  unfold deque_append. destruct (maxlen <=? length d)%nat eqn:C.
  - apply Nat.leb_le in C. unfold maxlen in C.
    rewrite length_app, length_drop. cbn [length]. lia.
  - rewrite length_app. cbn [length]. lia.
Qed.

Lemma tick_analyzer transport (m : monitor) (now : Z) (acq : acquisition) :
  mon_analyzer (tick transport m now acq).1
  = match acq with
    | AcqReading readings => (analyze (mon_analyzer m) now readings).1
    | _ => mon_analyzer m
    end.
Proof.
  unfold tick. destruct acq as [readings| |].
  - by destruct (analyze (mon_analyzer m) now readings).
  - by destruct (max_consecutive_errors <=? S (consecutive_errors m))%nat.
  - reflexivity.
Qed.

Lemma readings_of_cons (now : Z) (acq : acquisition)
    (ticks : list (Z * acquisition)) :
  readings_of ((now, acq) :: ticks)
  = match acq with
    | AcqReading readings => readings :: readings_of ticks
    | _ => readings_of ticks
    end.
Proof. by destruct acq. Qed.

Lemma run_windows transport (ticks : list (Z * acquisition)) :
  forall (m : monitor) (n : nat),
  (forall readings, readings ∈ readings_of ticks -> complete readings) ->
  length (heart_rate_history (mon_analyzer m)) = Nat.min n 60 ->
  length (spo2_history (mon_analyzer m)) = Nat.min n 60 ->
  length (temp_history (mon_analyzer m)) = Nat.min n 60 ->
  let an := mon_analyzer (run transport m ticks).1 in
  let k := Nat.min (n + length (readings_of ticks)) 60 in
  length (heart_rate_history an) = k /\
  length (spo2_history an) = k /\ length (temp_history an) = k.
Proof.
  induction ticks as [|[now acq] ticks IH]; intros m n Hall H1 H2 H3.
  - cbn. rewrite Nat.add_0_r. auto.
  - rewrite run_cons. cbn [fst].
    pose proof (tick_analyzer transport m now acq) as Ht.
    rewrite readings_of_cons in Hall |- *.
    destruct acq as [readings| |].
    + assert (Hc : complete readings) by (apply Hall; by left).
      destruct Hc as ([v1 E1] & [v2 E2] & [v3 E3]).
      destruct (analyze_histories (mon_analyzer m) now readings)
        as (A1 & A2 & A3).
      rewrite E1 in A1. rewrite E2 in A2. rewrite E3 in A3.
      cbn [update_history] in A1, A2, A3.
      specialize (IH (tick transport m now (AcqReading readings)).1 (S n)).
      rewrite Ht, A1, A2, A3, !deque_append_length, H1, H2, H3 in IH.
      unfold maxlen in IH.
      replace (n + length (readings :: readings_of ticks))%nat
        with (S n + length (readings_of ticks))%nat by (cbn [length]; lia).
      apply IH.
      * intros r Hr. apply Hall. by right.
      * destruct (60 <=? Nat.min n 60)%nat eqn:C;
          [apply Nat.leb_le in C | apply Nat.leb_gt in C]; lia.
      * destruct (60 <=? Nat.min n 60)%nat eqn:C;
          [apply Nat.leb_le in C | apply Nat.leb_gt in C]; lia.
      * destruct (60 <=? Nat.min n 60)%nat eqn:C;
          [apply Nat.leb_le in C | apply Nat.leb_gt in C]; lia.
    + specialize (IH (tick transport m now AcqNone).1 n).
      rewrite Ht in IH. apply IH; auto.
    + specialize (IH (tick transport m now AcqRaise).1 n).
      rewrite Ht in IH. apply IH; auto.
Qed.

(** X17. In a monitoring run whose readings all hold the three vitals (as
    every reading from [read_all] does), the three windows grow in step:
    after any sequence of ticks each of them holds as many samples as
    readings were taken, up to 60.  Failed reads add nothing.  So the three
    trend detectors all start on the tenth reading. *)
Theorem X17_windows_grow_in_step
    (transport : channel -> alert -> transport_outcome) (th : thresholds)
    (email sms : bool) (ticks : list (Z * acquisition)) :
  (forall readings, readings ∈ readings_of ticks -> complete readings) ->
  let an := mon_analyzer (run transport (new_monitor th email sms) ticks).1 in
  let k := Nat.min (length (readings_of ticks)) 60 in
  length (heart_rate_history an) = k /\
  length (spo2_history an) = k /\ length (temp_history an) = k.
Proof.
  intros Hall.
  apply (run_windows transport ticks (new_monitor th email sms) 0 Hall);
    reflexivity.
Qed.

(** A reading, a failed read, a reading: two samples in each window. *)
Lemma X17_witness :
  length
    (spo2_history
       (mon_analyzer
          (run sms_down (new_monitor default_thresholds false false)
             [(0%Z, AcqReading (combine (75%Z, 97%Z) 36.8%Q));
              (1%Z, AcqNone);
              (2%Z, AcqReading (combine (76%Z, 97%Z) 36.8%Q))]).1))
  = 2%nat.
Proof.
  destruct (X17_windows_grow_in_step sms_down default_thresholds false false
              [(0%Z, AcqReading (combine (75%Z, 97%Z) 36.8%Q));
               (1%Z, AcqNone);
               (2%Z, AcqReading (combine (76%Z, 97%Z) 36.8%Q))])
    as (_ & H & _).
  - intros r Hr. cbn in Hr. rewrite !elem_of_cons in Hr.
    destruct Hr as [-> | [-> | Hr]];
      [| |by apply elem_of_nil in Hr];
      repeat split; eexists; reflexivity.
  - exact H.
Defined.

(** ** The local channel *)

Lemma run_gpio_None (plan : list gpio_event) : run_gpio plan None = (true, plan).
Proof.
  induction plan as [|[p level|d] plan IH]; cbn [run_gpio];
    [reflexivity | by rewrite IH | by rewrite IH].
Qed.

Lemma run_gpio_Some (plan : list gpio_event) : forall k,
  ((run_gpio plan (Some k)).1 = true <-> (outputs plan <= k)%nat) /\
  (exists rest, plan = (run_gpio plan (Some k)).2 ++ rest) /\
  ((run_gpio plan (Some k)).1 = true -> (run_gpio plan (Some k)).2 = plan).
Proof.
  induction plan as [|[p level|d] plan IH]; intros k; cbn [run_gpio outputs].
  - cbn. repeat split; [lia | by exists []].
  - destruct k as [|k].
    + cbn. repeat split; try discriminate; try lia. by eexists.
    + destruct (IH k) as (H1 & (rest & H2) & H3).
      destruct (run_gpio plan (Some k)) as [ok done]. cbn [fst snd] in *.
      repeat split.
      * intros H. apply H1 in H. lia.
      * intros H. apply H1. lia.
      * exists rest. cbn. by f_equal.
      * intros H. f_equal. by apply H3.
  - destruct (IH k) as (H1 & (rest & H2) & H3).
    destruct (run_gpio plan (Some k)) as [ok done]. cbn [fst snd] in *.
    repeat split; try tauto.
    + exists rest. cbn. by f_equal.
    + intros H. f_equal. by apply H3.
Qed.

Lemma beep_slept (d : Q) (count : nat) :
  (slept (beep false d count) == 2 * inject_Z (Z.of_nat count) * d)%Q.
Proof.
  unfold beep. induction count as [|count IH].
  - cbn. ring.
  - cbn [replicate concat app slept].
    rewrite IH, Nat2Z.inj_succ, <- Z.add_1_r, inject_Z_plus. ring.
Qed.

Lemma beep_buzzer_level (sim : bool) (d : Q) (count : nat) :
  buzzer_level false (beep sim d count) = false.
Proof.
  unfold beep. destruct sim; [reflexivity|].
  induction count as [|count IH]; [reflexivity|exact IH].
Qed.

Lemma buzzer_level_app (level : bool) (e1 e2 : list gpio_event) :
  buzzer_level level (e1 ++ e2) = buzzer_level (buzzer_level level e1) e2.
Proof.
  revert level. induction e1 as [|[[| | |] l|d] e1 IH]; intros level;
    cbn [app buzzer_level]; auto.
Qed.

Lemma set_led_no_buzzer (sim : bool) (color : string) (level : bool) :
  buzzer_level level (set_led sim color) = level /\
  slept (set_led sim color) = 0%Q.
Proof.
  unfold set_led. destruct sim; [by split|].
  destruct (assoc color colors) as [[[r g] b]|]; by split.
Qed.

Lemma slept_app (e1 e2 : list gpio_event) :
  (slept (e1 ++ e2) == slept e1 + slept e2)%Q.
Proof.
  induction e1 as [|[p l|d] e1 IH]; cbn [app slept]; [ring | exact IH|].
  rewrite IH. ring.
Qed.

Lemma local_plan_facts (l : local_alert) (sim : bool) (a : alert) :
  buzzer_level false (local_plan l sim a) = false /\
  (sim = true \/ (led_enabled l = false /\ buzzer_enabled l = false) ->
   local_plan l sim a = []) /\
  (sim = false -> buzzer_enabled l = true ->
   (slept (local_plan l sim a)
    == 2 * inject_Z (Z.of_nat (beep_patterns (a_severity a)).2)
       * (beep_patterns (a_severity a)).1)%Q).
Proof.
  unfold local_plan. repeat split.
  - rewrite buzzer_level_app.
    assert (buzzer_level false
              (if led_enabled l then set_led sim (led_colors (a_severity a))
               else []) = false) as ->
      by (destruct (led_enabled l); [apply set_led_no_buzzer | reflexivity]).
    destruct (buzzer_enabled l); [apply beep_buzzer_level | reflexivity].
  - intros [-> | [-> ->]]; [|reflexivity].
    unfold set_led, beep. by destruct (led_enabled l), (buzzer_enabled l).
  - intros -> ->. rewrite slept_app, beep_slept.
    assert (slept (if led_enabled l
                   then set_led false (led_colors (a_severity a)) else [])
            = 0%Q) as ->
      by (destruct (led_enabled l);
          [apply (set_led_no_buzzer false _ false) | reflexivity]).
    ring.
Qed.

(** X18. [LocalAlert.send] returns [False] without touching a pin when it
    has no indicators.  With indicators it returns [True] exactly when no
    [GPIO.output] call of its plan raises, and what it has done is then the
    whole plan: the LED first, the beeps after, the buzzer left low, and
    the call has slept twice the beep duration per beep (3 seconds for a
    critical alert).  When a call raises, the events before it have
    happened and nothing is undone.  In simulation mode, or with LED and
    buzzer both switched off, it returns [True] although it does
    nothing. *)
Theorem X18_local_alert_send (l : local_alert) (a : alert)
    (fail_at : option nat) :
  (indicators l = None -> local_send l a fail_at = (false, [])) /\
  (forall sim, indicators l = Some sim ->
     (sim = true \/ (led_enabled l = false /\ buzzer_enabled l = false) ->
        local_send l a fail_at = (true, [])) /\
     ((local_send l a fail_at).1 = true <->
        forall k, fail_at = Some k -> (outputs (local_plan l sim a) <= k)%nat) /\
     (exists rest, local_plan l sim a = (local_send l a fail_at).2 ++ rest) /\
     ((local_send l a fail_at).1 = true ->
        (local_send l a fail_at).2 = local_plan l sim a /\
        buzzer_level false (local_send l a fail_at).2 = false /\
        (sim = false -> buzzer_enabled l = true ->
           (slept (local_send l a fail_at).2
            == 2 * inject_Z (Z.of_nat (beep_patterns (a_severity a)).2)
               * (beep_patterns (a_severity a)).1)%Q))).
Proof.
  unfold local_send. split; [by intros ->|].
  intros sim ->.
  destruct (local_plan_facts l sim a) as (Hb & Hnil & Hs).
  destruct fail_at as [k|].
  - destruct (run_gpio_Some (local_plan l sim a) k) as (H1 & H2 & H3).
    repeat split.
    + intros H. rewrite (Hnil H). reflexivity.
    + intros H k' [= <-]. by apply H1.
    + intros H. apply H1. by apply H.
    + exact H2.
    + by apply H3.
    + rewrite H3 by assumption. exact Hb.
    + intros Hsim Hbz. rewrite H3 by assumption. by apply Hs.
  - rewrite run_gpio_None. cbn [fst snd]. repeat split; auto.
    + intros H. by rewrite (Hnil H).
    + intros _ k [=].
    + exists []. by rewrite app_nil_r.
Qed.

(** A critical alert on real indicators, nothing raising: three seconds
    asleep. *)
Lemma X18_witness :
  (slept (local_send (mkLocalAlert true true (Some false)) (error_alert 0)
            None).2 == 3)%Q.
Proof.
  destruct (X18_local_alert_send (mkLocalAlert true true (Some false))
              (error_alert 0) None) as (_ & H).
  destruct (H false eq_refl) as (_ & _ & _ & H').
  destruct (H' eq_refl) as (_ & _ & Hs).
  rewrite (Hs eq_refl eq_refl). reflexivity.
Defined.
